(** * Offer approval pipeline of tayyib-restaurant-analytics

    Shallow embedding of
    - [src/utils/google_sheets.py]: the worksheet, [get_pending_offers_from_sheet]
      and the Reconciler [sync_offers_with_db];
    - [src/utils/queries.py]: [check_offer_exists_in_db];
    - [src/utils/google_sheets.py], further: [_ensure_headers] on the cells
      of line 1, [_normalize_private_key], [add_offer_to_sheet] and
      [remove_offer_from_sheet];
    - [src/utils/offers.py]: [DAYS_MAPPING], [format_days] and
      [process_offer_submission];
    - [src/admin_offer_approval.py]: the Offer Writer [insert_offer_to_db],
      the Approval Batch Runner [approve_offers] and [list_pending_offers].

    A cell is modelled by its text, and the value the code reads from it
    by [numericise] of that text (a [Cell]: text or number, as gspread
    hands it back); JSON values as [Json], and Python's [None] as [JNull]
    or [None]. *)

From Stdlib Require Import List String Ascii ZArith Bool Arith Lia.
Import ListNotations.

Open Scope string_scope.
Open Scope nat_scope.
Open Scope list_scope.
Set Warnings "-register-all".


(* ------------------------------------------------------------------ *)
(** ** Python helpers *)

(** [str.lower()]: ASCII capitals are lowered. The code compares the
    result with ASCII words only, and Latin-1 lowers no other letter to an
    ASCII one, so the other letters make no difference there. *)
Definition ascii_lower (c : ascii) : ascii :=
  let n := nat_of_ascii c in
  if (65 <=? n) && (n <=? 90) then ascii_of_nat (n + 32) else c.

Fixpoint py_lower (s : string) : string :=
  match s with
  | EmptyString => EmptyString
  | String c s' => String (ascii_lower c) (py_lower s')
  end.

(** Truthiness of a string: only [""] is falsy. *)
Definition str_truthy (s : string) : bool := negb (String.eqb s "").

(** [s if s else None] *)
Definition or_none (s : string) : option string :=
  if str_truthy s then Some s else None.

(** Values produced by [json.loads] (numbers restricted to integers). *)
Inductive Json :=
| JNull
| JBool (b : bool)
| JNum (z : Z)
| JStr (s : string)
| JArr (l : list Json)
| JObj (kvs : list (string * Json)).

(** Python truthiness of a decoded JSON value. *)
Definition json_truthy (j : Json) : bool :=
  match j with
  | JNull => false
  | JBool b => b
  | JNum z => negb (Z.eqb z 0)
  | JStr s => str_truthy s
  | JArr l => negb (match l with [] => true | _ => false end)
  | JObj kvs => negb (match kvs with [] => true | _ => false end)
  end.

(** A JSON loader: [None] is the exception raised by [json.loads]. *)
Definition Loader := string -> option Json.

(** [d.get(k)] on a decoded object: the last binding wins, as in a dict
    built from a JSON text; [None] when absent. *)
Definition py_get (kvs : list (string * Json)) (k : string) : Json :=
  match find (fun kv => String.eqb (fst kv) k) (rev kvs) with
  | Some (_, v) => v
  | None => JNull
  end.

(** [d[k]]: [None] is the [KeyError]. *)
Definition py_subscript (kvs : list (string * Json)) (k : string) : option Json :=
  match find (fun kv => String.eqb (fst kv) k) (rev kvs) with
  | Some (_, v) => Some v
  | None => None
  end.

(* ------------------------------------------------------------------ *)
(** ** A loader for the JSON texts of the examples

    Integers, strings without escapes, arrays, objects and the three
    literals; anything else is refused. Most theorems are stated over every
    [Loader]; this one evaluates concrete rows, and the theorems about the
    texts [add_offer_to_sheet] writes (lists of integers, [{}]) use it. *)

Definition is_ws (c : ascii) : bool :=
  match nat_of_ascii c with 32 | 9 | 10 | 13 => true | _ => false end.

Fixpoint skip_ws (s : list ascii) : list ascii :=
  match s with
  | c :: r => if is_ws c then skip_ws r else s
  | [] => []
  end.

Definition digit_of (c : ascii) : option Z :=
  let n := nat_of_ascii c in
  if (48 <=? n) && (n <=? 57) then Some (Z.of_nat (n - 48)) else None.

Definition is_digit (c : ascii) : bool :=
  match digit_of c with Some _ => true | None => false end.

Fixpoint digits_of (fuel : nat) (n : Z) (acc : string) : string :=
  match fuel with
  | O => acc
  | S f =>
      let acc' := String (ascii_of_nat (48 + Z.to_nat (n mod 10))) acc in
      if Z.eqb (n / 10) 0 then acc' else digits_of f (n / 10) acc'
  end.

(** [str(z)] / [json.dumps(z)] of an integer. *)
Definition py_int_repr (z : Z) : string :=
  if Z.ltb z 0 then String "-" (digits_of (S (Z.to_nat (Z.log2 (- z)))) (- z) "")
  else digits_of (S (Z.to_nat (Z.log2 z))) z "".

Fixpoint lex_digits (acc : Z) (s : list ascii) : Z * list ascii :=
  match s with
  | c :: r => match digit_of c with
              | Some d => lex_digits (acc * 10 + d) r
              | None => (acc, s)
              end
  | [] => (acc, [])
  end.

(** The double-quote character (ASCII 34). *)
Definition quote_char : ascii := ascii_of_nat 34.

Fixpoint lex_string (acc : list ascii) (s : list ascii) : option (string * list ascii) :=
  match s with
  | [] => None
  | c :: r =>
      if Ascii.eqb c quote_char then Some (string_of_list_ascii (rev acc), r)
      else if Ascii.eqb c "\" then None
      else lex_string (c :: acc) r
  end.

Definition lex_number (s : list ascii) : option (Z * list ascii) :=
  let '(neg, s1) := match s with
                    | c :: r => if Ascii.eqb c "-" then (true, r) else (false, s)
                    | [] => (false, s)
                    end in
  match s1 with
  | c :: r =>
      match digit_of c with
      | Some d =>
          let '(z, rest) := if Z.eqb d 0 then (0%Z, r) else lex_digits d r in
          match rest with
          | c' :: _ => if Ascii.eqb c' "." || Ascii.eqb c' "e" || Ascii.eqb c' "E"
                         || negb (match digit_of c' with None => true | _ => false end)
                       then None else Some (if neg then Z.opp z else z, rest)
          | [] => Some (if neg then Z.opp z else z, rest)
          end
      | None => None
      end
  | [] => None
  end.

Fixpoint lex_keyword (kw : list ascii) (s : list ascii) : option (list ascii) :=
  match kw, s with
  | [], _ => Some s
  | k :: kw', c :: s' => if Ascii.eqb k c then lex_keyword kw' s' else None
  | _ :: _, [] => None
  end.

Fixpoint parse_value (fuel : nat) (s : list ascii) : option (Json * list ascii) :=
  match fuel with
  | O => None
  | S f =>
      match skip_ws s with
      | [] => None
      | c :: r =>
          if Ascii.eqb c "[" then
            match skip_ws r with
            | c' :: r' => if Ascii.eqb c' "]" then Some (JArr [], r')
                          else parse_elems f r []
            | [] => None
            end
          else if Ascii.eqb c "{" then
            match skip_ws r with
            | c' :: r' => if Ascii.eqb c' "}" then Some (JObj [], r')
                          else parse_members f r []
            | [] => None
            end
          else if Ascii.eqb c quote_char then
            option_map (fun '(str, r') => (JStr str, r')) (lex_string [] r)
          else if Ascii.eqb c "n" then
            option_map (fun r' => (JNull, r')) (lex_keyword (list_ascii_of_string "ull") r)
          else if Ascii.eqb c "t" then
            option_map (fun r' => (JBool true, r')) (lex_keyword (list_ascii_of_string "rue") r)
          else if Ascii.eqb c "f" then
            option_map (fun r' => (JBool false, r')) (lex_keyword (list_ascii_of_string "alse") r)
          else option_map (fun '(z, r') => (JNum z, r')) (lex_number (c :: r))
      end
  end
with parse_elems (fuel : nat) (s : list ascii) (acc : list Json) : option (Json * list ascii) :=
  match fuel with
  | O => None
  | S f =>
      match parse_value f s with
      | None => None
      | Some (v, r) =>
          match skip_ws r with
          | c :: r' => if Ascii.eqb c "," then parse_elems f r' (v :: acc)
                       else if Ascii.eqb c "]" then Some (JArr (rev (v :: acc)), r')
                       else None
          | [] => None
          end
      end
  end
with parse_members (fuel : nat) (s : list ascii) (acc : list (string * Json))
  : option (Json * list ascii) :=
  match fuel with
  | O => None
  | S f =>
      match skip_ws s with
      | c :: r =>
          if Ascii.eqb c quote_char then
            match lex_string [] r with
            | None => None
            | Some (k, r1) =>
                match skip_ws r1 with
                | c1 :: r2 =>
                    if Ascii.eqb c1 ":" then
                      match parse_value f r2 with
                      | None => None
                      | Some (v, r3) =>
                          match skip_ws r3 with
                          | c3 :: r4 =>
                              if Ascii.eqb c3 "," then parse_members f r4 ((k, v) :: acc)
                              else if Ascii.eqb c3 "}" then Some (JObj (rev ((k, v) :: acc)), r4)
                              else None
                          | [] => None
                          end
                      end
                    else None
                | [] => None
                end
            end
          else None
      | [] => None
      end
  end.

Definition json_loads : Loader := fun s =>
  let cs := list_ascii_of_string s in
  match parse_value (S (List.length cs)) cs with
  | Some (v, rest) => match skip_ws rest with [] => Some v | _ => None end
  | None => None
  end.

(* ------------------------------------------------------------------ *)
(** ** The worksheet

    One line of the worksheet: the fifteen columns of [HEADERS]. The
    worksheet is the list of its lines; line 1 is the header line and
    [get_all_records] returns the lines after it, keyed by the header. *)

Record Row := mkRow {
  timestamp : string;
  restaurant_id : string;
  restaurant_name : string;
  offer_type : string;
  title : string;
  description : string;
  summary : string;
  valid_days_of_week : string;
  valid_start_time : string;
  valid_end_time : string;
  start_date : string;
  end_date : string;
  unique_usage_per_user : string;
  surprise_bag_data : string;
  status : string
}.

Definition Row_eq_dec (x y : Row) : {x = y} + {x <> y}.
Proof. decide equality; apply string_dec. Defined.

(** [HEADERS] *)
Definition HEADERS : Row :=
  mkRow "timestamp" "restaurant_id" "restaurant_name" "offer_type"
        "title" "description" "summary" "valid_days_of_week"
        "valid_start_time" "valid_end_time" "start_date" "end_date"
        "unique_usage_per_user" "surprise_bag_data" "status".

Definition Worksheet := list Row.

(** [ws.get_all_records()]: the lines after line 1, by the formatted text
    of their cells. gspread hands back [numericise] (below) of each text;
    the model keeps the texts and applies [numericise] where the code
    reads a value. *)
Definition get_all_records (ws : Worksheet) : list Row := tl ws.

(* ------------------------------------------------------------------ *)
(** ** The value of a cell ([gspread.utils.numericise])

    With gspread's defaults, a text holding an underscore stays text;
    otherwise, its commas removed, a text [int()] accepts becomes that
    [int], else one [float()] accepts becomes that [float], else the text
    stays as it was (the empty text too). [int()] and [float()] ignore
    surrounding white space. Characters are Latin-1 code points: their
    white space is 9-13, 28-31, 32, 133 and 160, and their only decimal
    digits are 0-9. Python's limit of 4300 digits on [int()] of a text is
    left out. *)

Inductive Cell :=
| CText (s : string)       (* a [str]: the cell's text *)
| CInt (z : Z)             (* an [int] *)
| CFloat (t : string).     (* a [float], by the stripped text it was read from *)

(** White space in the sense of [str.isspace()]. *)
Definition py_space (c : ascii) : bool :=
  match nat_of_ascii c with
  | 9 | 10 | 11 | 12 | 13 | 28 | 29 | 30 | 31 | 32 | 133 | 160 => true
  | _ => false
  end.

Fixpoint drop_space (l : list ascii) : list ascii :=
  match l with
  | c :: r => if py_space c then drop_space r else l
  | [] => []
  end.

(** [s.strip()] *)
Definition strip_space (l : list ascii) : list ascii := rev (drop_space (rev (drop_space l))).

(** An optional [+] or [-]: whether it is [-], and the rest. *)
Definition opt_sign (l : list ascii) : bool * list ascii :=
  match l with
  | c :: r => if Ascii.eqb c "-" then (true, r)
              else if Ascii.eqb c "+" then (false, r) else (false, l)
  | [] => (false, l)
  end.

(** The leading decimal digits, and the rest. *)
Fixpoint span_digits (l : list ascii) : list ascii * list ascii :=
  match l with
  | c :: r => if is_digit c then let '(ds, rest) := span_digits r in (c :: ds, rest)
              else ([], l)
  | [] => ([], [])
  end.

(** The value of a list of decimal digits. *)
Definition digits_value (ds : list ascii) : Z :=
  fold_left (fun acc c => match digit_of c with
                          | Some d => (acc * 10 + d)%Z
                          | None => acc
                          end) ds 0%Z.

(** [int(t)] of a stripped text: an optional sign, then one or more
    digits. *)
Definition int_body (l : list ascii) : option Z :=
  let '(neg, l1) := opt_sign l in
  match span_digits l1 with
  | ((_ :: _) as ds, []) => Some (if neg then Z.opp (digits_value ds) else digits_value ds)
  | _ => None
  end.

(** [float(t)] of a stripped text: an optional sign, then [inf],
    [infinity] or [nan] in any case, or [digits [. [digits]]] or
    [. digits] with an optional exponent: [e] or [E], an optional sign and
    digits. [Some (Some (m, e))]: a finite number of magnitude [m * 10^e];
    [Some None]: an infinity or [nan]; [None]: the [ValueError]. *)
Definition float_body (l : list ascii) : option (option (Z * Z)) :=
  let '(_, l1) := opt_sign l in
  let w := py_lower (string_of_list_ascii l1) in
  if String.eqb w "inf" || String.eqb w "infinity" || String.eqb w "nan" then Some None
  else
    let '(ip, r1) := span_digits l1 in
    let '(fp, r2) := match r1 with
                     | c :: r => if Ascii.eqb c "." then span_digits r else ([], r1)
                     | [] => ([], [])
                     end in
    let m := digits_value (ip ++ fp) in
    let shift := Z.of_nat (List.length fp) in
    match ip ++ fp, r2 with
    | [], _ => None
    | _, [] => Some (Some (m, Z.opp shift))
    | _, c :: r =>
        if Ascii.eqb c "e" || Ascii.eqb c "E" then
          let '(eneg, r3) := opt_sign r in
          match span_digits r3 with
          | ((_ :: _) as ed, []) =>
              Some (Some (m, ((if eneg then Z.opp (digits_value ed) else digits_value ed)
                              - shift)%Z))
          | _ => None
          end
        else None
    end.

(** [numericise(value)] *)
Definition numericise (s : string) : Cell :=
  let l := list_ascii_of_string s in
  if existsb (fun c => Ascii.eqb c "_") l then CText s
  else
    let v := strip_space (filter (fun c => negb (Ascii.eqb c ",")) l) in
    match int_body v with
    | Some z => CInt z
    | None => match float_body v with
              | Some _ => CFloat (string_of_list_ascii v)
              | None => CText s
              end
    end.

(** [bool(x)] of the float read from [t]: [0.0] is falsy, also when a
    nonzero decimal value rounds to it (magnitude at most [2^-1075], half
    the least subnormal, rounding to even); infinities and [nan] are
    truthy. *)
Definition float_truthy (t : string) : bool :=
  match float_body (list_ascii_of_string t) with
  | Some (Some (m, e)) =>
      negb (Z.eqb m 0) && (Z.leb 0 e || Z.ltb (10 ^ (- e)) (m * 2 ^ 1075))%Z
  | _ => true
  end.

(** Python truthiness of a cell's value. *)
Definition cell_truthy (v : Cell) : bool :=
  match v with
  | CText s => str_truthy s
  | CInt z => negb (Z.eqb z 0)
  | CFloat t => float_truthy t
  end.

(** [v if v else None], [v or None] *)
Definition cell_or_none (v : Cell) : option Cell :=
  if cell_truthy v then Some v else None.

(** [v == t] for a text [t]: a number never equals a text. *)
Definition cell_eqb_text (v : Cell) (t : string) : bool :=
  match v with CText s => String.eqb s t | _ => false end.

(** [json.loads(v)] of a cell's value; [None] is the exception it raises
    ([TypeError] for a number). *)
Definition cell_loads (loads : Loader) (v : Cell) : option Json :=
  match v with CText s => loads s | _ => None end.

Section CellStr.
(** [str(x)] of the float read from a text (Python's shortest text that
    reads back as the same float), left as a parameter. *)
Variable float_repr : string -> string.

(** [str(v)] of a cell's value. *)
Definition cell_str (v : Cell) : string :=
  match v with
  | CText s => s
  | CInt z => py_int_repr z
  | CFloat t => float_repr t
  end.

End CellStr.

(** [_ensure_headers(ws)]: row 1 is rewritten unless it equals [HEADERS]. *)
Definition _ensure_headers (ws : Worksheet) : Worksheet :=
  match ws with
  | [] => [HEADERS]
  | h :: rest => if Row_eq_dec h HEADERS then ws else HEADERS :: rest
  end.

(** [ws.delete_rows(n)] with 1-based [n]; [None] is the API error raised
    for a row that does not exist. *)
Fixpoint delete_at {A} (k : nat) (xs : list A) : option (list A) :=
  match xs, k with
  | [], _ => None
  | _ :: xs', O => Some xs'
  | x :: xs', S k' => option_map (cons x) (delete_at k' xs')
  end.

Definition delete_rows {A} (n : nat) (xs : list A) : option (list A) :=
  match n with
  | O => None
  | S k => delete_at k xs
  end.

(** [for idx in idxs: ws.delete_rows(idx)]: the worksheet after the
    calls, and [false] when a call raised (the later calls are not made). *)
Fixpoint delete_each {A} (idxs : list nat) (xs : list A) : list A * bool :=
  match idxs with
  | [] => (xs, true)
  | n :: idxs' =>
      match delete_rows n xs with
      | None => (xs, false)
      | Some xs' => delete_each idxs' xs'
      end
  end.

(** The lines whose 1-based position [p] satisfies [drop p = false],
    positions counted from [i]. *)
Fixpoint keep_from {A} (drop : nat -> bool) (i : nat) (xs : list A) : list A :=
  match xs with
  | [] => []
  | x :: xs' => if drop i then keep_from drop (S i) xs'
                else x :: keep_from drop (S i) xs'
  end.

Definition mem_nat (n : nat) (ns : list nat) : bool := existsb (Nat.eqb n) ns.

Fixpoint strictly_decreasing (ns : list nat) : bool :=
  match ns with
  | a :: ((b :: _) as rest) => (b <? a) && strictly_decreasing rest
  | _ => true
  end.

Fixpoint strictly_increasing (ns : list nat) : bool :=
  match ns with
  | a :: ((b :: _) as rest) => (a <? b) && strictly_increasing rest
  | _ => true
  end.

(* ------------------------------------------------------------------ *)
(** ** The Reconciler *)

(** What [get_df] hands back for the [COUNT( * )] query of
    [check_offer_exists_in_db], keyed by its three parameters: [None] when
    the query raises (store unreachable), [Some rows] otherwise. *)
Definition CountQuery := string -> string -> string -> option (list Z).

(** [check_offer_exists_in_db(restaurant_id, offer_title, offer_type)];
    [None] is the exception it lets through. *)
Definition check_offer_exists_in_db (q : CountQuery) (rid t ty : string) : option bool :=
  match q rid t ty with
  | None => None
  | Some [] => Some false
  | Some (c :: _) => Some (Z.ltb 0 c)
  end.

(** The same call with the values read from a line: the query compares
    them with text ([->>] yields text, [ot.en] is text), and PostgreSQL
    has no operator comparing text with a number, so a number value makes
    it raise. *)
Definition check_cells (q : CountQuery) (rid : string) (t ty : Cell) : option bool :=
  match t, ty with
  | CText t', CText ty' => check_offer_exists_in_db q rid t' ty'
  | _, _ => None
  end.

(** Messages shown by the Reconciler. *)
Inductive SyncMsg := MsgSynced (n : nat).

Section Sync.
Variable float_repr : string -> string.

(** The indices collected by the loop of [sync_offers_with_db],
    [enumerate(records, start=2)]. *)
Fixpoint sync_collect (q : CountQuery) (rid : string) (i : nat) (records : list Row)
  : list nat :=
  match records with
  | [] => []
  | r :: rs =>
      let rest := sync_collect q rid (S i) rs in
      if negb (String.eqb (cell_str float_repr (numericise (restaurant_id r))) rid) then rest
      else if negb (String.eqb (py_lower (cell_str float_repr (numericise (status r))))
                               "pending") then rest
      else match check_cells q rid (numericise (title r)) (numericise (offer_type r)) with
           | Some true => i :: rest
           | _ => rest           (* [False], or the [except Exception: pass] *)
           end
  end.

(** [sync_offers_with_db(restaurant_id, restaurant_name)].
    [queries_ok]: the import of [check_offer_exists_in_db] succeeds;
    [ws_ok]: [_get_ws()] returns a worksheet. The result is the worksheet
    after the call with the messages shown, [None] when an exception
    escapes to the caller. [sync_to_delete] is its list [to_delete]. *)
Definition sync_to_delete (queries_ok ws_ok : bool) (q : CountQuery) (rid : string)
  (ws : Worksheet) : list nat :=
  if queries_ok && ws_ok
  then sync_collect q rid 2 (get_all_records (_ensure_headers ws))
  else [].

Definition sync_offers_with_db (queries_ok ws_ok : bool) (q : CountQuery)
  (rid rname : string) (ws : Worksheet) : Worksheet * option (list SyncMsg) :=
  if negb queries_ok then (ws, Some [])
  else if negb ws_ok then (ws, Some [])
  else
    let ws1 := _ensure_headers ws in
    let to_delete := sync_to_delete queries_ok ws_ok q rid ws in
    match delete_each (rev to_delete) ws1 with
    | (ws2, false) => (ws2, None)
    | (ws2, true) =>
        (ws2, Some (match to_delete with [] => [] | _ => [MsgSynced (List.length to_delete)] end))
    end.

End Sync.

(* ------------------------------------------------------------------ *)
(** ** Reading the pending offers of one restaurant *)

Fixpoint lstrip (s : string) : string :=
  match s with
  | String c s' => if py_space c then lstrip s' else s
  | EmptyString => EmptyString
  end.

Definition rstrip (s : string) : string :=
  string_of_list_ascii (rev (list_ascii_of_string (lstrip
    (string_of_list_ascii (rev (list_ascii_of_string s)))))).

(** [str.strip()] *)
Definition py_strip (s : string) : string := rstrip (lstrip s).

(** The dict built for one pending row. *)
Record PendingOffer := mkPending {
  p_timestamp : Cell;
  p_offer_type : Cell;
  p_title : Cell;
  p_description : Cell;
  p_summary : Cell;
  p_valid_days_of_week : Json;
  p_valid_start_time : option Cell;
  p_valid_end_time : option Cell;
  p_start_date : option Cell;
  p_end_date : option Cell;
  p_unique_usage_per_user : bool;
  p_status : string;
  p_surprise_bag : option Json
}.

Section Pending.
Variable float_repr : string -> string.
Variable loads : Loader.

(** The body of the [try] block of [get_pending_offers_from_sheet];
    [None] is an exception, caught by [except Exception: continue]. *)
Definition normalize_pending (r : Row) : option PendingOffer :=
  let vdw := numericise (valid_days_of_week r) in
  match cell_loads loads (if cell_truthy vdw then vdw else CText "[]") with
  | None => None
  | Some days =>
      let base := fun sb => mkPending
        (numericise (timestamp r)) (numericise (offer_type r)) (numericise (title r))
        (numericise (description r)) (numericise (summary r))
        (if json_truthy days then days else JNull)
        (cell_or_none (numericise (valid_start_time r)))
        (cell_or_none (numericise (valid_end_time r)))
        (cell_or_none (numericise (start_date r)))
        (cell_or_none (numericise (end_date r)))
        (let u := py_lower (py_strip (cell_str float_repr (numericise (unique_usage_per_user r)))) in
         String.eqb u "true" || String.eqb u "1" || String.eqb u "yes")
        "pending" sb in
      let sb := numericise (surprise_bag_data r) in
      if cell_truthy sb then
        match cell_loads loads sb with
        | None => None
        | Some j => Some (base (Some j))
        end
      else Some (base None)
  end.

Fixpoint pending_loop (rid : string) (values : list Row) : list PendingOffer :=
  match values with
  | [] => []
  | r :: rs =>
      if negb (String.eqb (cell_str float_repr (numericise (restaurant_id r))) rid)
      then pending_loop rid rs
      else if negb (String.eqb (py_lower (cell_str float_repr (numericise (status r))))
                               "pending")
      then pending_loop rid rs
      else match normalize_pending r with
           | Some p => p :: pending_loop rid rs
           | None => pending_loop rid rs
           end
  end.

(** [get_pending_offers_from_sheet(restaurant_id)]; [ws_ok]: [_get_ws()]
    returns a worksheet. [rid] is [str(restaurant_id)]. *)
Definition get_pending_offers_from_sheet (ws_ok : bool) (ws : Worksheet) (rid : string)
  : list PendingOffer :=
  if negb ws_ok then []
  else pending_loop rid (get_all_records (_ensure_headers ws)).

End Pending.

(* ------------------------------------------------------------------ *)
(** ** The relational store, seen through one psycopg2 connection

    The parameters of the [INSERT INTO offers] statement. *)
Record OfferIns := mkOfferIns {
  o_restaurant_id : Cell;
  o_title : Cell;                   (* about.en.title *)
  o_description : Cell;
  o_summary : Cell;
  o_offer_type : Z;
  o_valid_days_of_week : Json;      (* [JNull] is SQL NULL *)
  o_valid_start_time : option Cell;
  o_valid_end_time : option Cell;
  o_start_date : Cell;
  o_end_date : option Cell;
  o_unique_usage_per_user : Cell
}.

(** The parameters of the [INSERT INTO surprise_bags] statement
    ([JNull] is SQL NULL). *)
Record BagIns := mkBagIns {
  b_offer_id : Z;
  b_price : Json;
  b_estimated_value : Json;
  b_daily_quantity : Json;
  b_current_daily_quantity : Json;
  b_total_quantity : Json
}.

Record DB := mkDB {
  offers : list (Z * OfferIns);
  surprise_bags : list BagIns
}.

(** The connection: the committed database, the view of the open
    transaction, whether a statement of the open transaction failed
    (PostgreSQL then refuses every statement with
    [InFailedSqlTransaction] and turns [COMMIT] into [ROLLBACK]), and the
    id sequence of [offers] (not transactional). *)
Record Conn := mkConn {
  committed : DB;
  work : DB;
  aborted : bool;
  seq : Z
}.

(** What the store decides by itself: the [offer_types] table (display
    name [en] to [id], in scan order) and whether it accepts the values of
    an insert (column types, time and date literals, constraints). *)
Record Store := mkStore {
  offer_types : list (string * Z);
  offer_accepts : OfferIns -> bool;
  bag_accepts : BagIns -> bool
}.

Inductive Exn :=
| ExnSql                 (* the database rejects the statement *)
| ExnInFailedTx          (* a statement sent after a failed one *)
| ExnConnect             (* [_connect()] fails *)
| ExnJson                (* [json.loads] *)
| ExnKey (k : string)    (* [d[k]] *)
| ExnAttribute           (* [.get] on a value that is not a dict *)
| ExnType                (* [json.loads] of a number *)
| ExnSheets.             (* a worksheet call fails *)

(** Lines printed by [insert_offer_to_db] and [approve_offers] (emoji left
    out); a value is shown by its cell's text. *)
Inductive Msg :=
| MsgConnectingSheets                       (* Connecting to Google Sheets... *)
| MsgNoPending                              (* No pending offers to approve. *)
| MsgFound (n : nat)                        (* Found {n} pending offers to approve... *)
| MsgCancelled                              (* Approval cancelled. *)
| MsgConnectingDb                           (* Connecting to database... *)
| MsgTypeNotFound (t : string)              (* Error: Offer type '{t}' not found *)
| MsgProcessing (t rname : string)          (* Processing: {title} for {restaurant_name} *)
| MsgCreated (id : Z)                       (* Created offer ID: {offer_id} *)
| MsgFailedCreate (t : string)              (* Failed to create offer: {title} *)
| MsgRowError (t : string) (e : Exn)        (* Error processing {title}: {e} *)
| MsgCommitted                              (* Database changes committed. *)
| MsgCleaning                               (* Cleaning up Google Sheets... *)
| MsgApproved (n : nat)                     (* Successfully approved {n} offers! *)
| MsgRemoved (n : nat)                      (* {n} rows removed from Google Sheets. *)
| MsgFatal (e : Exn)                        (* Error in approval process: {e} *)
| MsgRollingBack.                           (* Rolling back database changes... *)

Record World := mkWorld { conn : Conn; out : list Msg }.

(** Python statements: state changes made before an exception stay. *)
Inductive Res (A : Type) := Ok (a : A) | Raise (e : Exn).
Arguments Ok {A} a.
Arguments Raise {A} e.

Definition M (A : Type) := World -> World * Res A.

Definition ret {A} (a : A) : M A := fun w => (w, Ok a).
Definition raise {A} (e : Exn) : M A := fun w => (w, Raise e).
Definition bind {A B} (c : M A) (k : A -> M B) : M B := fun w =>
  match c w with
  | (w', Ok a) => k a w'
  | (w', Raise e) => (w', Raise e)
  end.

Notation "x <- c ;; k" := (bind c (fun x => k))
  (at level 61, c at next level, right associativity).
Notation "c ;;; k" := (bind c (fun _ => k)) (at level 61, right associativity).

(** [try: c except Exception as e: ...] *)
Definition try_ {A} (c : M A) : M (Res A) := fun w =>
  let '(w', r) := c w in (w', Ok r).

Definition print (m : Msg) : M unit := fun w => (mkWorld (conn w) (out w ++ [m]), Ok tt).

Definition set_conn (c : Conn) : M unit := fun w => (mkWorld c (out w), Ok tt).

Definition get_conn : M Conn := fun w => (w, Ok (conn w)).

Definition lift_opt {A} (e : Exn) (o : option A) : M A :=
  match o with Some a => ret a | None => raise e end.

(** [conn.commit()] *)
Definition commit (c : Conn) : Conn :=
  if aborted c then mkConn (committed c) (committed c) false (seq c)
  else mkConn (work c) (work c) false (seq c).

(** [conn.rollback()] *)
Definition rollback (c : Conn) : Conn :=
  mkConn (committed c) (committed c) false (seq c).

(** A connection with no transaction in progress. *)
Definition fresh_conn (db : DB) (s : Z) : Conn := mkConn db db false s.

Section Writer.
Variable st : Store.
Variable loads : Loader.

(** [cursor.execute(...)] of one statement inside the open transaction. *)
Definition execute {A} (accepts : bool) (change : Conn -> Conn * A) : M A :=
  c <- get_conn ;;
  if aborted c then raise ExnInFailedTx
  else if accepts then
    let '(c', a) := change c in set_conn c' ;;; ret a
  else set_conn (mkConn (committed c) (work c) true (seq c)) ;;; raise ExnSql.

(** [get_offer_type_id(cursor, offer_type_name)]. The column [en] of
    [offer_types] holds display names such as [Percent Discount]: text.
    PostgreSQL has no operator comparing text with a number, so a number
    value makes the statement fail. *)
Definition get_offer_type_id (name : Cell) : M (option Z) :=
  match name with
  | CText s =>
      execute true (fun c =>
        (c, option_map snd (find (fun p => String.eqb (fst p) s) (offer_types st))))
  | _ => execute false (fun c => (c, None))
  end.

(** [INSERT INTO offers ... RETURNING id] then [fetchone()['id']]. *)
Definition insert_offer (o : OfferIns) : M Z :=
  execute (offer_accepts st o) (fun c =>
    let id := seq c in
    (mkConn (committed c)
            (mkDB (offers (work c) ++ [(id, o)]) (surprise_bags (work c)))
            (aborted c) (id + 1)%Z, id)).

(** [INSERT INTO surprise_bags ...] *)
Definition insert_bag (b : BagIns) : M unit :=
  execute (bag_accepts st b) (fun c =>
    (mkConn (committed c)
            (mkDB (offers (work c)) (surprise_bags (work c) ++ [b]))
            (aborted c) (seq c), tt)).

(** [json.loads(v)] of a cell's value. *)
Definition loads_cell (v : Cell) : M Json :=
  match v with
  | CText s => lift_opt ExnJson (loads s)
  | _ => raise ExnType
  end.

Definition as_dict (j : Json) : M (list (string * Json)) :=
  match j with JObj kvs => ret kvs | _ => raise ExnAttribute end.

(** [insert_offer_to_db(cursor, offer_data)] *)
Definition insert_offer_to_db (r : Row) : M (option Z) :=
  tid <- get_offer_type_id (numericise (offer_type r)) ;;
  match tid with
  | None => print (MsgTypeNotFound (offer_type r)) ;;; ret None
  | Some offer_type_id =>
    if Z.eqb offer_type_id 0 then print (MsgTypeNotFound (offer_type r)) ;;; ret None
    else
      valid_days <- (if cell_truthy (numericise (valid_days_of_week r))
                     then loads_cell (numericise (valid_days_of_week r))
                     else ret JNull) ;;
      let start_time := cell_or_none (numericise (valid_start_time r)) in
      let end_time := cell_or_none (numericise (valid_end_time r)) in
      let end_d := cell_or_none (numericise (end_date r)) in
      offer_id <- insert_offer (mkOfferIns (numericise (restaurant_id r)) (numericise (title r))
                                  (numericise (description r)) (numericise (summary r))
                                  offer_type_id valid_days start_time end_time
                                  (numericise (start_date r)) end_d
                                  (numericise (unique_usage_per_user r))) ;;
      if cell_truthy (numericise (surprise_bag_data r)) then
        sbv <- loads_cell (numericise (surprise_bag_data r)) ;;
        kvs <- as_dict sbv ;;
        let daily_qty := py_get kvs "daily_quantity" in
        price <- lift_opt (ExnKey "price") (py_subscript kvs "price") ;;
        est <- lift_opt (ExnKey "estimated_value") (py_subscript kvs "estimated_value") ;;
        insert_bag (mkBagIns offer_id price est daily_qty daily_qty
                             (py_get kvs "total_quantity")) ;;;
        ret (Some offer_id)
      else ret (Some offer_id)
  end.

(** The body of the [try] block for one pending record, with its
    [except]: the outcome of [insert_offer_to_db]. *)
Definition process_record (r : Row) : M (Res (option Z)) :=
  try_ (print (MsgProcessing (title r) (restaurant_name r)) ;;; insert_offer_to_db r).

(** [for i, record in enumerate(records, start=2): ...] with the
    accumulators [rows_to_delete] and [approved_count]. *)
Fixpoint approve_loop (i : nat) (records : list Row) (rows_to_delete : list nat)
  (approved_count : nat) : M (list nat * nat) :=
  match records with
  | [] => ret (rows_to_delete, approved_count)
  | r :: rs =>
      (* [record['status'] == 'pending']: [numericise] keeps a text as it
         is, so the value is the text [pending] exactly when the cell's
         text is ([status_value_pending]). *)
      if String.eqb (status r) "pending" then
        res <- process_record r ;;
        match res with
        | Ok (Some offer_id) =>
            if Z.eqb offer_id 0
            then print (MsgFailedCreate (title r)) ;;;
                 approve_loop (S i) rs rows_to_delete approved_count
            else print (MsgCreated offer_id) ;;;
                 approve_loop (S i) rs (rows_to_delete ++ [i]) (S approved_count)
        | Ok None => print (MsgFailedCreate (title r)) ;;;
                     approve_loop (S i) rs rows_to_delete approved_count
        | Raise e => print (MsgRowError (title r) e) ;;;
                     approve_loop (S i) rs rows_to_delete approved_count
        end
      else approve_loop (S i) rs rows_to_delete approved_count
  end.

(** [approve_offers()] from the point the worksheet is open, with the
    operator's [response] and whether [_connect()] succeeds. Returns the
    worksheet and the connection and output after the run. *)
Definition approve_offers (ws : Worksheet) (response : string) (connect_ok : bool)
  (c0 : Conn) : Worksheet * World :=
  let w0 := mkWorld c0 [MsgConnectingSheets] in
  let records := get_all_records ws in
  let pending_offers := filter (fun r => String.eqb (status r) "pending") records in
  match pending_offers with
  | [] => (ws, fst (print MsgNoPending w0))
  | _ =>
    let w1 := fst (print (MsgFound (List.length pending_offers)) w0) in
    if negb (String.eqb (py_lower response) "y") then (ws, fst (print MsgCancelled w1))
    else
      let w2 := fst (print MsgConnectingDb w1) in
      if negb connect_ok then (ws, fst (print (MsgFatal ExnConnect) w2))
      else
        match approve_loop 2 records [] 0 w2 with
        | (w3, Ok (rows_to_delete, approved_count)) =>
          let w4 := mkWorld (commit (conn w3)) (out w3) in
          let w5 := fst ((print MsgCommitted ;;; print MsgCleaning) w4) in
          match delete_each (rev rows_to_delete) ws with
          | (ws', true) =>
              (ws', fst ((print (MsgApproved approved_count) ;;;
                          print (MsgRemoved approved_count)) w5))
          | (ws', false) =>
              (ws', fst ((print (MsgFatal ExnSheets) ;;; print MsgRollingBack ;;;
                          set_conn (rollback (conn w5))) w5))
          end
        | (w3, Raise e) =>           (* unreachable: the loop catches every row *)
          (ws, fst ((print (MsgFatal e) ;;; print MsgRollingBack ;;;
                     set_conn (rollback (conn w3))) w3))
        end
  end.

End Writer.


(** Exceptions raised by Python code rather than by the database. *)
Definition python_exn (e : Exn) : bool :=
  match e with ExnJson | ExnKey _ | ExnAttribute | ExnType => true | _ => false end.

(** The connection after an accepted [INSERT INTO offers]. *)
Definition add_offer (c : Conn) (o : OfferIns) : Conn :=
  mkConn (committed c) (mkDB (offers (work c) ++ [(seq c, o)]) (surprise_bags (work c)))
         (aborted c) (seq c + 1)%Z.

(** The connection after an accepted [INSERT INTO surprise_bags]. *)
Definition add_bag (c : Conn) (b : BagIns) : Conn :=
  mkConn (committed c) (mkDB (offers (work c)) (surprise_bags (work c) ++ [b]))
         (aborted c) (seq c).

(** The connection after a rejected statement. *)
Definition mark_aborted (c : Conn) : Conn := mkConn (committed c) (work c) true (seq c).


(** [approve_offers] reaches its batch loop: some record is pending, the
    operator answered [y] and the connection opened. *)
Definition approve_proceeds (ws : Worksheet) (response : string) (connect_ok : bool) : bool :=
  match filter (fun r => String.eqb (status r) "pending") (get_all_records ws) with
  | [] => false
  | _ => String.eqb (py_lower response) "y" && connect_ok
  end.

(** The state [approve_offers] enters its batch loop with. *)
Definition approve_start_world (c0 : Conn) (ws : Worksheet) : World :=
  mkWorld c0 [MsgConnectingSheets;
              MsgFound (List.length (filter (fun r => String.eqb (status r) "pending")
                                            (get_all_records ws)));
              MsgConnectingDb].

(* ------------------------------------------------------------------ *)
(** ** Sample inputs

    A store whose [offer_types] table holds two display names and which,
    like PostgreSQL's [time] and [date] input, refuses time and date texts
    that are not of the shapes [HH:MM[:SS]] and [YYYY-MM-DD] (for instance
    the text ["None"] that [add_offer_to_sheet] writes, via [str(None)], for
    an offer without a start time). *)

Fixpoint shape_ok (pat : list bool) (s : list ascii) (sep : ascii) : bool :=
  match pat, s with
  | [], [] => true
  | true :: pat', c :: s' => is_digit c && shape_ok pat' s' sep
  | false :: pat', c :: s' => Ascii.eqb c sep && shape_ok pat' s' sep
  | _, _ => false
  end.

Definition pg_time_ok (s : string) : bool :=
  shape_ok [true; true; false; true; true] (list_ascii_of_string s) ":"
  || shape_ok [true; true; false; true; true; false; true; true] (list_ascii_of_string s) ":".

Definition pg_date_ok (s : string) : bool :=
  shape_ok [true; true; true; true; false; true; true; false; true; true]
           (list_ascii_of_string s) "-".

(** A [time] or [date] column takes a text of the right shape; a number
    parameter has no cast to it. *)
Definition text_ok (f : string -> bool) (v : Cell) : bool :=
  match v with CText s => f s | _ => false end.

Definition opt_ok (f : string -> bool) (o : option Cell) : bool :=
  match o with Some v => text_ok f v | None => true end.

Definition sample_store : Store :=
  mkStore [("Percent Discount", 1%Z); ("Surprise Bag", 2%Z)]
          (fun o => opt_ok pg_time_ok (o_valid_start_time o)
                    && opt_ok pg_time_ok (o_valid_end_time o)
                    && text_ok pg_date_ok (o_start_date o)
                    && opt_ok pg_date_ok (o_end_date o))
          (fun _ => true).

(** A JSON string literal. *)
Definition json_str (s : string) : string :=
  String quote_char (String.append s (String quote_char EmptyString)).


(** [{"estimated_value":12,"daily_quantity":20}]: no price. *)
Definition sample_bag_text_no_price : string :=
  String.append "{" (String.append (json_str "estimated_value")
  (String.append ":12," (String.append (json_str "daily_quantity") ":20}"))).

(** Row A of the end-to-end scenario. *)
Definition row_a : Row :=
  mkRow "2025-03-01T10:00:00" "7" "Tayyib" "Percent Discount" "10% Off"
        "Ten percent off" "10% off" "[1,3]" "10:00" "14:00" "2025-03-01" ""
        "FALSE" "" "pending".

(** Row B of the end-to-end scenario: an unknown offer type. *)
Definition row_b : Row :=
  mkRow "2025-03-01T11:00:00" "7" "Tayyib" "NotARealType" "Bad Offer"
        "" "" "" "" "" "2025-03-01" "" "FALSE" "" "pending".


(** A row submitted without a start time: [str(None)] is ["None"]. *)
Definition row_no_time : Row :=
  mkRow "2025-03-01T12:00:00" "7" "Tayyib" "Percent Discount" "Lunch deal"
        "" "" "[2]" "None" "None" "2025-03-01" "" "FALSE" "" "pending".


(** A surprise-bag row whose bag data lacks the price. *)
Definition row_bag_no_price : Row :=
  mkRow "2025-03-01T14:00:00" "7" "Tayyib" "Surprise Bag" "Morning bag"
        "" "" "" "" "" "2025-03-01" "" "FALSE" sample_bag_text_no_price "pending".

(** A row whose empty time and date cells are to be read as NULL. *)
Definition row_empty_times : Row :=
  mkRow "2025-03-01T15:00:00" "7" "Tayyib" "Percent Discount" "All day"
        "" "" "" "" "" "2025-03-01" "" "TRUE" "" "pending".

Definition empty_db : DB := mkDB [] [].

Definition sample_conn : Conn := fresh_conn empty_db 1%Z.


(** A pending row whose [valid_days_of_week] cell is not valid JSON. *)
Definition row_bad_days : Row :=
  mkRow "2025-03-01T16:00:00" "7" "Tayyib" "Percent Discount" "Broken days"
        "" "" "[1," "" "" "2025-03-01" "" "FALSE" "" "pending".

(** A row whose title cell reads as the number 2024. *)
Definition row_year_title : Row :=
  mkRow "2025-03-01T17:00:00" "7" "Tayyib" "Percent Discount" "2024"
        "" "" "[1]" "10:00" "12:00" "2025-03-01" "" "FALSE" "" "pending".

(** A row whose [valid_days_of_week] cell reads as the number 5. *)
Definition row_days_five : Row :=
  mkRow "2025-03-01T16:30:00" "7" "Tayyib" "Percent Discount" "Day five"
        "" "" "5" "" "" "2025-03-01" "" "FALSE" "" "pending".

(* ------------------------------------------------------------------ *)
(** ** The header line cell by cell ([google_sheets._ensure_headers]) *)

(** [HEADERS] as the cells of line 1. *)
Definition HEADER_CELLS : list string :=
  ["timestamp"; "restaurant_id"; "restaurant_name"; "offer_type";
   "title"; "description"; "summary"; "valid_days_of_week";
   "valid_start_time"; "valid_end_time"; "start_date"; "end_date";
   "unique_usage_per_user"; "surprise_bag_data"; "status"].

Fixpoint strs_eqb (a b : list string) : bool :=
  match a, b with
  | [], [] => true
  | x :: a', y :: b' => String.eqb x y && strs_eqb a' b'
  | _, _ => false
  end.

(** [len(set(map(str, current))) != len(current)] *)
Fixpoint has_dup (l : list string) : bool :=
  match l with
  | [] => false
  | x :: r => existsb (String.eqb x) r || has_dup r
  end.

(** [_ensure_headers(ws)] on the cells [ws.row_values(1)] returns (a
    list of strings: the API never hands back [None]): line 1 afterwards,
    and whether [batch_clear] and [update] were called. [batch_clear]
    empties A1:O1 (the 15 columns of [HEADERS]) and [update([HEADERS])]
    writes them; the cells right of column O stay. *)
Definition ensure_header_cells (current : list string) : list string * bool :=
  let needs_fix :=
    match current with [] => true | _ => false end
    || negb (Nat.eqb (List.length current) (List.length HEADER_CELLS))
    || existsb (fun c => String.eqb (py_strip c) "") current
    || has_dup current in
  if needs_fix || negb (strs_eqb current HEADER_CELLS)
  then (HEADER_CELLS ++ skipn (List.length HEADER_CELLS) current, true)
  else (current, false).

(** The cells of a line, left to right. *)
Definition row_cells (r : Row) : list string :=
  [timestamp r; restaurant_id r; restaurant_name r; offer_type r; title r;
   description r; summary r; valid_days_of_week r; valid_start_time r;
   valid_end_time r; start_date r; end_date r; unique_usage_per_user r;
   surprise_bag_data r; status r].

(** [row_values] drops the empty cells at the end of a line. *)
Definition trim_trailing_empty (l : list string) : list string :=
  rev (let fix drop (l : list string) :=
         match l with
         | x :: r => if String.eqb x "" then drop r else l
         | [] => []
         end in drop (rev l)).

(* ------------------------------------------------------------------ *)
(** ** [google_sheets._normalize_private_key] *)

Definition backslash : ascii := ascii_of_nat 92.
Definition newline : ascii := ascii_of_nat 10.

(** ["\\n" in s]: the two characters backslash and [n]. *)
Fixpoint has_backslash_n (s : string) : bool :=
  match s with
  | String c ((String d _) as rest) =>
      (Ascii.eqb c backslash && Ascii.eqb d "n"%char) || has_backslash_n rest
  | _ => false
  end.

(** ["\n" in s]: a real newline. *)
Fixpoint has_newline (s : string) : bool :=
  match s with
  | EmptyString => false
  | String c r => Ascii.eqb c newline || has_newline r
  end.

(** [s.replace("\\n", "\n")]: left to right, without overlaps. *)
Fixpoint replace_backslash_n (s : string) : string :=
  match s with
  | String c ((String d r) as rest) =>
      if Ascii.eqb c backslash && Ascii.eqb d "n"%char
      then String newline (replace_backslash_n r)
      else String c (replace_backslash_n rest)
  | _ => s
  end.

(** A dict of strings as an association list with distinct keys. *)
Definition dict_get (d : list (string * string)) (k : string) (default : string) : string :=
  match find (fun kv => String.eqb (fst kv) k) d with
  | Some (_, v) => v
  | None => default
  end.

(** [{**d, k: v}]: the value of [k] replaced in place, or [k] added last. *)
Definition dict_set (d : list (string * string)) (k v : string) : list (string * string) :=
  if existsb (fun kv => String.eqb (fst kv) k) d
  then map (fun kv => if String.eqb (fst kv) k then (k, v) else kv) d
  else d ++ [(k, v)].

Definition _normalize_private_key (info : list (string * string)) : list (string * string) :=
  let pk := dict_get info "private_key" "" in
  if has_backslash_n pk && negb (has_newline pk)
  then dict_set info "private_key" (replace_backslash_n pk)
  else info.

(* ------------------------------------------------------------------ *)
(** ** [google_sheets.remove_offer_from_sheet] *)

Section Remove.
Variable float_repr : string -> string.

(** The test of the loop of [remove_offer_from_sheet], for the texts
    [offer_title] and [offer_type]. *)
Definition offer_matches (rid t ty : string) (r : Row) : bool :=
  String.eqb (cell_str float_repr (numericise (restaurant_id r))) rid
  && cell_eqb_text (numericise (title r)) t
  && cell_eqb_text (numericise (offer_type r)) ty.

(** [for i, r in enumerate(records, start=2)]: the first matching line. *)
Fixpoint remove_find (rid t ty : string) (i : nat) (records : list Row) : option nat :=
  match records with
  | [] => None
  | r :: rs => if offer_matches rid t ty r then Some i else remove_find rid t ty (S i) rs
  end.

(** [remove_offer_from_sheet(restaurant_id, offer_title, offer_type)];
    [ws_ok]: [_get_ws()] returns a worksheet (it runs [_ensure_headers]).
    [None] is the API error [delete_rows] would raise. *)
Definition remove_offer_from_sheet (ws_ok : bool) (rid t ty : string) (ws : Worksheet)
  : option (Worksheet * bool) :=
  if negb ws_ok then Some (ws, false)
  else
    let ws1 := _ensure_headers ws in
    match remove_find rid t ty 2 (get_all_records ws1) with
    | Some i => option_map (fun ws2 => (ws2, true)) (delete_rows i ws1)
    | None => Some (ws1, false)
    end.

End Remove.

(* ------------------------------------------------------------------ *)
(** ** From the offer form to a worksheet line
    ([utils/offers.process_offer_submission], [google_sheets.add_offer_to_sheet]) *)

(** [json.dumps(l)] of a list of integers (separator [", "]). *)
Definition json_dumps_ints (l : list Z) : string :=
  String.append "[" (String.append (String.concat ", " (map py_int_repr l)) "]").

(** [str(time(h, m))]: [HH:MM:SS]. *)
Definition pad2 (n : nat) : string :=
  if n <? 10 then String "0" (py_int_repr (Z.of_nat n)) else py_int_repr (Z.of_nat n).

Definition time_str (t : nat * nat) : string :=
  String.append (pad2 (fst t)) (String.append ":" (String.append (pad2 (snd t)) ":00")).

(** The dict [add_offer_to_sheet] reads, as seen through its [get]s. *)
Record OfferData := mkOfferData {
  od_offer_type : string;
  od_title : string;                          (* about.en.title *)
  od_description : string;                    (* about.en.get("description", "") *)
  od_summary : string;                        (* about.en.get("summary", "") *)
  od_valid_days_of_week : list Z;             (* get("valid_days_of_week") or [] *)
  od_valid_start_time : option string;        (* str() of the value; None for None *)
  od_valid_end_time : option string;
  od_start_date : option string;              (* str() of a truthy value; None otherwise *)
  od_end_date : option string;
  od_unique_usage_per_user : bool;            (* truthiness *)
  od_surprise_bag : option string             (* json.dumps of a non-empty dict *)
}.

(** [str(x)] for a value that is [None] or has the text [s]. *)
Definition py_str_opt (x : option string) : string :=
  match x with Some s => s | None => "None" end.

(** The [row] list of [add_offer_to_sheet]; [now] is
    [datetime.utcnow().isoformat()], [rid] is [str(restaurant_id)]. *)
Definition sheet_row (now rid rname : string) (od : OfferData) : Row :=
  mkRow now rid rname (od_offer_type od) (od_title od) (od_description od) (od_summary od)
        (json_dumps_ints (od_valid_days_of_week od))
        (py_str_opt (od_valid_start_time od))
        (py_str_opt (od_valid_end_time od))
        (match od_start_date od with Some d => d | None => "" end)
        (match od_end_date od with Some d => d | None => "" end)
        (if od_unique_usage_per_user od then "TRUE" else "FALSE")
        (match od_surprise_bag od with Some t => t | None => "{}" end)
        "pending".

(** [add_offer_to_sheet(restaurant_id, restaurant_name, offer_data)];
    [first_ok] and [second_ok]: whether the first [append_row] and its
    retry go through. *)
Definition add_offer_to_sheet (ws_ok first_ok second_ok : bool) (now rid rname : string)
  (od : OfferData) (ws : Worksheet) : Worksheet * bool :=
  if negb ws_ok then (ws, false)
  else
    let ws1 := _ensure_headers ws in
    if first_ok || second_ok then (ws1 ++ [sheet_row now rid rname od], true)
    else (ws1, false).

(** The choices of the [Valid days of week] multiselect. *)
Inductive Day := Mon | Tue | Wed | Thu | Fri | Sat | Sun.

Definition DAYS_MAPPING (d : Day) : Z :=
  match d with
  | Mon => 1 | Tue => 2 | Wed => 3 | Thu => 4 | Fri => 5 | Sat => 6 | Sun => 0
  end.

Definition day_label (d : Day) : string :=
  match d with
  | Mon => "Mon" | Tue => "Tue" | Wed => "Wed" | Thu => "Thu"
  | Fri => "Fri" | Sat => "Sat" | Sun => "Sun"
  end.

(** The widgets of [render_offer_form]: text fields, the surprise-bag
    inputs (prices as the text [json.dumps] gives the floats), the days,
    the two [time_input]s as (hour, minute), the dates as [str(date)]. *)
Record OfferForm := mkOfferForm {
  f_title : string;
  f_description : string;
  f_summary : string;
  f_price : string;
  f_estimated_value : string;
  f_daily_recurring : bool;                   (* is_recurring == "Daily (recurring)" *)
  f_daily_quantity : Z;
  f_total_quantity : Z;
  f_valid_days : list Day;
  f_start_time : nat * nat;
  f_end_time : nat * nat;
  f_start_date : string;
  f_end_date : option string;
  f_unique_usage : bool
}.

Definition time_eqb (a b : nat * nat) : bool := Nat.eqb (fst a) (fst b) && Nat.eqb (snd a) (snd b).

(** [json.dumps] of the [surprise_bag] dict ([", "] and [": "]). *)
Definition bag_json (f : OfferForm) : string :=
  String.concat "" [
    "{"; json_str "price"; ": "; f_price f; ", ";
    json_str "estimated_value"; ": "; f_estimated_value f; ", ";
    (if f_daily_recurring f
     then String.append (json_str "daily_quantity") (String.append ": " (py_int_repr (f_daily_quantity f)))
     else String.append (json_str "total_quantity") (String.append ": " (py_int_repr (f_total_quantity f))));
    "}"].

(** [process_offer_submission(offer_type, offer_data)]; [None] when the
    title is empty. *)
Definition process_offer_submission (offer_type : string) (f : OfferForm) : option OfferData :=
  if negb (str_truthy (f_title f)) then None
  else Some (mkOfferData offer_type (f_title f) (f_description f) (f_summary f)
              (map DAYS_MAPPING (f_valid_days f))
              (if time_eqb (f_start_time f) (0, 0) then None else Some (time_str (f_start_time f)))
              (if time_eqb (f_end_time f) (23, 59) then None else Some (time_str (f_end_time f)))
              (Some (f_start_date f))
              (f_end_date f)
              (f_unique_usage f)
              (if String.eqb offer_type "Surprise Bag" then Some (bag_json f) else None)).

(** [day_names] of [format_days]; [None] is the [KeyError]. *)
Definition day_names (z : Z) : option string :=
  match z with
  | 0%Z => Some "Sun" | 1%Z => Some "Mon" | 2%Z => Some "Tue" | 3%Z => Some "Wed"
  | 4%Z => Some "Thu" | 5%Z => Some "Fri" | 6%Z => Some "Sat" | _ => None
  end.

Fixpoint day_names_all (days : list Z) : option (list string) :=
  match days with
  | [] => Some []
  | d :: ds => match day_names d, day_names_all ds with
               | Some n, Some ns => Some (n :: ns)
               | _, _ => None
               end
  end.

(** [format_days(days_array)]; [None] (a [KeyError]) for a number outside
    0..6. A [None] array reads as the empty one. *)
Definition format_days (days : list Z) : option string :=
  match days with
  | [] => Some "All days"
  | _ => option_map (String.concat ", ") (day_names_all days)
  end.

(* ------------------------------------------------------------------ *)
(** ** [admin_offer_approval.list_pending_offers] *)

(** What [list_pending_offers] prints, with the values it prints (the
    offer type by its cell's text). *)
Inductive ListMsg :=
| LNoPending                                   (* No pending offers found. *)
| LFound (n : nat)                             (* Found {n} pending offers: *)
| LRule                                        (* a line of 100 dashes *)
| LItem (i : nat) (t rname otype : string)     (* {i}. {title[:40]} | {restaurant_name[:20]} | {offer_type} *)
| LDescription (d : string)                    (* Description: {description[:60]}... *)
| LSubmitted (ts : string)                     (* Submitted: {timestamp[:16]} *)
| LBag (price est : Json)                      (* Surprise Bag: ${price} (Est. Value: ${estimated_value}) *)
| LError.                                      (* Error listing offers: {e} *)

Section Listing.
Variable loads : Loader.

(** The body of [for i, offer in enumerate(pending_offers, 1)]; an
    exception ends the listing with the [except] message. *)
Fixpoint list_loop (i : nat) (offers : list Row) : list ListMsg :=
  match offers with
  | [] => []
  | r :: rs =>
      (* slicing a number raises [TypeError] *)
      match numericise (title r), numericise (restaurant_name r) with
      | CText t, CText n =>
          LItem i (substring 0 40 t) (substring 0 20 n) (offer_type r)
          :: match numericise (description r) with
             | CText d =>
                 LDescription (substring 0 60 d)
                 :: match numericise (timestamp r) with
                    | CText ts =>
                        LSubmitted (substring 0 16 ts)
                        :: if cell_truthy (numericise (surprise_bag_data r)) then
                             match cell_loads loads (numericise (surprise_bag_data r)) with
                             | Some (JObj kvs) =>
                                 match py_subscript kvs "price",
                                       py_subscript kvs "estimated_value" with
                                 | Some p, Some e => LBag p e :: LRule :: list_loop (S i) rs
                                 | _, _ => [LError]
                                 end
                             | _ => [LError]
                             end
                           else LRule :: list_loop (S i) rs
                    | _ => [LError]
                    end
             | _ => [LError]
             end
      | _, _ => [LError]
      end
  end.

(** [list_pending_offers()]; [ws_ok]: the client and [sheet1] open. *)
Definition list_pending_offers (ws_ok : bool) (ws : Worksheet) : list ListMsg :=
  if negb ws_ok then [LError]
  else
    match filter (fun r => String.eqb (status r) "pending") (get_all_records ws) with
    | [] => [LNoPending]
    | pending => LFound (List.length pending) :: LRule :: list_loop 1 pending
    end.

End Listing.

(* ------------------------------------------------------------------ *)
(** ** Sample inputs for the offer form and the worksheet line *)

(** A [Percent Discount] form for Monday and Tuesday, left at the
    default daily times 00:00 and 23:59. *)
Definition sample_form : OfferForm :=
  mkOfferForm "Lunch deal" "" "" "" "" true 0%Z 0%Z [Mon; Tue] (0, 0) (23, 59)
              "2025-03-01" None false.

(** The dict [process_offer_submission] builds from [sample_form]. *)
Definition sample_offer : OfferData :=
  mkOfferData "Percent Discount" "Lunch deal" "" "" [1%Z; 2%Z] None None
              (Some "2025-03-01") None false None.

Definition sample_now : string := "2025-03-01T12:00:00".

(** A store that knows both offer types and refuses no insert. *)
Definition accept_all_store : Store :=
  mkStore [("Percent Discount", 1%Z); ("Surprise Bag", 2%Z)] (fun _ => true) (fun _ => true).

(** A line whose status was typed as [Pending]. *)
Definition row_mixed_case : Row :=
  mkRow "2025-03-01T17:00:00" "7" "Tayyib" "Percent Discount" "Happy hour"
        "" "" "[1,3]" "17:00" "19:00" "2025-03-01" "" "FALSE" "" "Pending".

(** The lines printed after the last [Cleaning up Google Sheets] line:
    the final report of a run. *)
Fixpoint take_until_cleaning (l : list Msg) : list Msg :=
  match l with
  | [] => []
  | MsgCleaning :: _ => []
  | m :: rest => m :: take_until_cleaning rest
  end.

Definition final_report (l : list Msg) : list Msg := rev (take_until_cleaning (rev l)).

(** [get_df] when the relational store cannot be reached: every
    [COUNT( * )] query raises. *)
Definition query_down : CountQuery := fun _ _ _ => None.

(** The offer [insert_offer_to_db] builds for [row_bag_no_price]. *)
Definition offer_bag_no_price : OfferIns :=
  mkOfferIns (CInt 7) (CText "Morning bag") (CText "") (CText "") 2%Z JNull None None
             (CText "2025-03-01") None (CText "FALSE").

(** A world with an open connection on the empty database. *)
Definition sample_world : World := mkWorld sample_conn [].

(* ------------------------------------------------------------------ *)
(** ** Facts about cell values *)

(** A text [numericise] hands back is the cell's own text. *)
Lemma numericise_text (s t : string) : numericise s = CText t -> t = s.
Proof.
  unfold numericise.
  destruct (existsb _ _); [congruence|].
  destruct (int_body _); [discriminate|].
  destruct (float_body _); congruence.
Qed.

(** The characters a text [int()] or [float()] accepts can start with,
    white space and the comma [numericise] removes. *)
Definition num_lead (c : ascii) : bool :=
  py_space c || is_digit c
  || existsb (Ascii.eqb c) [","; "+"; "-"; "."; "i"; "I"; "n"; "N"]%char.

Lemma ascii_lower_i (c : ascii) :
  Ascii.eqb (ascii_lower c) "i" = Ascii.eqb c "i" || Ascii.eqb c "I".
Proof. destruct c as [[] [] [] [] [] [] [] []]; reflexivity. Qed.

Lemma ascii_lower_n (c : ascii) :
  Ascii.eqb (ascii_lower c) "n" = Ascii.eqb c "n" || Ascii.eqb c "N".
Proof. destruct c as [[] [] [] [] [] [] [] []]; reflexivity. Qed.

Lemma drop_space_snoc (l : list ascii) (c : ascii) :
  py_space c = false -> exists m, drop_space (l ++ [c]) = m ++ [c].
Proof.
  intros Hc. induction l as [|x l IH]; simpl.
  - rewrite Hc. exists []. reflexivity.
  - destruct (py_space x); [exact IH|]. exists (x :: l). reflexivity.
Qed.

Lemma strip_space_lead (c : ascii) (l : list ascii) :
  py_space c = false -> exists rest, strip_space (c :: l) = c :: rest.
Proof.
  intros Hc. unfold strip_space. simpl. rewrite Hc. simpl.
  destruct (drop_space_snoc (rev l) c Hc) as (m & ->).
  rewrite rev_app_distr. simpl. eexists. reflexivity.
Qed.

(** A text that does not start like a number stays text. *)
Lemma numericise_lead (c : ascii) (s : string) :
  num_lead c = false -> numericise (String c s) = CText (String c s).
Proof.
  intros H. unfold num_lead in H.
  apply orb_false_iff in H as [H Hl]. apply orb_false_iff in H as [Hsp Hd].
  cbn [existsb] in Hl. rewrite orb_false_r in Hl.
  apply orb_false_iff in Hl as [Hcm Hl]. apply orb_false_iff in Hl as [Hpl Hl].
  apply orb_false_iff in Hl as [Hmi Hl]. apply orb_false_iff in Hl as [Hdot Hl].
  apply orb_false_iff in Hl as [Hi1 Hl]. apply orb_false_iff in Hl as [Hi2 Hl].
  apply orb_false_iff in Hl as [Hn1 Hn2].
  unfold numericise. cbn [list_ascii_of_string].
  destruct (existsb _ _); [reflexivity|].
  cbn [filter]. rewrite Hcm. cbn [negb].
  destruct (strip_space_lead c (filter (fun c0 => negb (c0 =? ",")%char) (list_ascii_of_string s)) Hsp)
    as (rest & ->).
  unfold int_body, float_body, opt_sign.
  rewrite Hmi, Hpl. cbn [span_digits]. rewrite Hd.
  cbn [string_of_list_ascii py_lower].
  assert (Hi : Ascii.eqb (ascii_lower c) "i" = false)
    by (rewrite ascii_lower_i, Hi1, Hi2; reflexivity).
  assert (Hn : Ascii.eqb (ascii_lower c) "n" = false)
    by (rewrite ascii_lower_n, Hn1, Hn2; reflexivity).
  assert (Hs : forall t, String.eqb (String (ascii_lower c) t) "inf" = false
                         /\ String.eqb (String (ascii_lower c) t) "infinity" = false
                         /\ String.eqb (String (ascii_lower c) t) "nan" = false).
  { intros t. cbn [String.eqb]. rewrite Hi, Hn. auto. }
  destruct (Hs (py_lower (string_of_list_ascii rest))) as (-> & -> & ->).
  cbn [orb]. rewrite Hdot. reflexivity.
Qed.

(** [record['status'] == 'pending'] is the test on the cell's text. *)
Lemma status_value_pending (s : string) :
  cell_eqb_text (numericise s) "pending" = String.eqb s "pending".
Proof.
  destruct (String.eqb_spec s "pending") as [->|Hne]; [reflexivity|].
  destruct (numericise s) eqn:E; try reflexivity.
  apply numericise_text in E. subst. simpl.
  apply String.eqb_neq. exact Hne.
Qed.

(* ------------------------------------------------------------------ *)
(** ** Deleting rows by index *)

Section Deletion.
Context {A : Type}.

Lemma delete_at_middle (a b : list A) (x : A) :
  delete_at (List.length a) (a ++ x :: b) = Some (a ++ b).
Proof.
  induction a as [|y a IH]; simpl; [reflexivity|].
  rewrite IH; reflexivity.
Qed.

Lemma split_at_index (k : nat) (xs : list A) :
  k < List.length xs ->
  exists a x b, xs = a ++ x :: b /\ List.length a = k.
Proof.
  revert xs; induction k as [|k IH]; intros [|y xs] Hk; simpl in Hk; try lia.
  - exists [], y, xs; auto.
  - destruct (IH xs ltac:(lia)) as (a & x & b & -> & Ha).
    exists (y :: a), x, b; simpl; auto.
Qed.

Lemma keep_from_app (d : nat -> bool) (i : nat) (a b : list A) :
  keep_from d i (a ++ b) = keep_from d i a ++ keep_from d (i + List.length a) b.
Proof.
  revert i; induction a as [|x a IH]; intros i; simpl.
  - now rewrite Nat.add_0_r.
  - rewrite IH. replace (S i + List.length a) with (i + S (List.length a)) by lia.
    destruct (d i); reflexivity.
Qed.

Lemma keep_from_ext (d d' : nat -> bool) (i : nat) (xs : list A) :
  (forall j, i <= j < i + List.length xs -> d j = d' j) ->
  keep_from d i xs = keep_from d' i xs.
Proof.
  revert i; induction xs as [|x xs IH]; intros i H; simpl; [reflexivity|].
  simpl in H. rewrite (H i ltac:(lia)).
  rewrite (IH (S i)) by (intros j Hj; apply H; lia).
  reflexivity.
Qed.

Lemma keep_from_nothing (d : nat -> bool) (i : nat) (xs : list A) :
  (forall j, i <= j < i + List.length xs -> d j = false) ->
  keep_from d i xs = xs.
Proof.
  revert i; induction xs as [|x xs IH]; intros i H; simpl; [reflexivity|].
  simpl in H. rewrite (H i ltac:(lia)).
  rewrite (IH (S i)) by (intros j Hj; apply H; lia).
  reflexivity.
Qed.

Lemma strictly_increasing_snoc (ns : list nat) (m : nat) :
  strictly_increasing (ns ++ [m]) = true ->
  strictly_increasing ns = true /\ forall n, In n ns -> n < m.
Proof.
  induction ns as [|a ns IH]; simpl; intros H; [split; [reflexivity|tauto]|].
  destruct ns as [|b ns].
  - simpl in H. apply andb_true_iff in H as [H _]. apply Nat.ltb_lt in H.
    split; [reflexivity|]. intros n [<-|[]]; exact H.
  - simpl in H. apply andb_true_iff in H as [Hab H].
    destruct (IH H) as [Hs Hlt]. apply Nat.ltb_lt in Hab.
    split.
    + change (strictly_increasing (a :: b :: ns))
        with ((a <? b) && strictly_increasing (b :: ns)).
      rewrite Hs. apply Nat.ltb_lt in Hab. now rewrite Hab.
    + intros n [<-|Hn]; [|now apply Hlt].
      specialize (Hlt b (or_introl eq_refl)). lia.
Qed.

Lemma strictly_increasing_rev (ns : list nat) :
  strictly_increasing ns = true -> strictly_decreasing (rev ns) = true.
Proof.
  induction ns as [|a ns IH] using rev_ind; intros H; [reflexivity|].
  apply strictly_increasing_snoc in H as [Hs Hlt].
  rewrite rev_app_distr. simpl.
  specialize (IH Hs).
  destruct (rev ns) as [|b rest] eqn:E; [reflexivity|].
  apply andb_true_iff; split; [|exact IH].
  apply Nat.ltb_lt, Hlt. apply in_rev. rewrite E. left; reflexivity.
Qed.

(** Deleting strictly increasing, in-range 1-based positions from the
    highest down removes exactly those lines and keeps the others in
    order. *)
Lemma delete_each_descending (ns : list nat) (xs : list A) :
  strictly_increasing ns = true ->
  (forall n, In n ns -> 1 <= n <= List.length xs) ->
  delete_each (rev ns) xs = (keep_from (fun p => mem_nat p ns) 1 xs, true).
Proof.
  revert xs.
  induction ns as [|m ns IH] using rev_ind; intros xs Hs Hr.
  - simpl. f_equal. symmetry. apply keep_from_nothing. reflexivity.
  - apply strictly_increasing_snoc in Hs as [Hs Hlt].
    rewrite rev_app_distr. simpl rev. simpl app.
    assert (Hm : 1 <= m <= List.length xs) by (apply Hr; apply in_or_app; right; left; reflexivity).
    destruct (split_at_index (m - 1) xs ltac:(lia)) as (a & x & b & -> & Ha).
    cbn [delete_each]. unfold delete_rows at 1.
    destruct m as [|m']; [lia|]. replace m' with (List.length a) by lia.
    rewrite delete_at_middle.
    rewrite IH; [| exact Hs |].
    2:{ intros n Hn. specialize (Hlt n Hn).
        assert (Hn' : 1 <= n) by (apply Hr; apply in_or_app; left; exact Hn).
        rewrite length_app in *. simpl in *. lia. }
    f_equal.
    rewrite !keep_from_app. simpl.
    assert (Hmem : forall p, mem_nat p (ns ++ [S (List.length a)])
                             = mem_nat p ns || Nat.eqb p (S (List.length a))).
    { intros p. unfold mem_nat. rewrite existsb_app. simpl.
      now rewrite orb_false_r. }
    rewrite Hmem, Nat.eqb_refl, orb_true_r.
    f_equal.
    + apply keep_from_ext. intros j Hj. rewrite Hmem.
      destruct (Nat.eqb_spec j (S (List.length a))); [lia|].
      now rewrite orb_false_r.
    + rewrite keep_from_nothing.
      2:{ intros j Hj. unfold mem_nat.
          apply not_true_is_false. intros Hex. apply existsb_exists in Hex as (n & Hn & Hjn).
          apply Nat.eqb_eq in Hjn; subst n. specialize (Hlt j Hn). lia. }
      rewrite keep_from_nothing; [reflexivity|].
      intros j Hj. rewrite Hmem. unfold mem_nat.
      apply orb_false_iff; split.
      * apply not_true_is_false. intros Hex. apply existsb_exists in Hex as (n & Hn & Hjn).
        apply Nat.eqb_eq in Hjn; subst n. specialize (Hlt j Hn). lia.
      * apply Nat.eqb_neq. lia.
Qed.

Lemma delete_at_length (k : nat) (xs ys : list A) :
  delete_at k xs = Some ys -> List.length ys + 1 = List.length xs.
Proof.
  revert k ys; induction xs as [|x xs IH]; intros k ys.
  - destruct k; simpl; discriminate.
  - destruct k as [|k]; simpl.
    + intros H. injection H as <-. lia.
    + destruct (delete_at k xs) as [zs|] eqn:E; simpl; [|discriminate].
      intros H. injection H as <-. simpl. specialize (IH k zs E). lia.
Qed.

(** Each successful [delete_rows] call removes one line. *)
Lemma delete_each_length (ns : list nat) (xs ys : list A) :
  delete_each ns xs = (ys, true) -> List.length ys + List.length ns = List.length xs.
Proof.
  revert xs; induction ns as [|n ns IH]; intros xs; simpl.
  - intros H. injection H as <-. lia.
  - unfold delete_rows. destruct n as [|k]; [discriminate|].
    destruct (delete_at k xs) as [zs|] eqn:E; [|discriminate].
    intros H. apply IH in H. apply delete_at_length in E. lia.
Qed.

End Deletion.

(* ------------------------------------------------------------------ *)
(** ** Facts about the Reconciler's loop *)

Section SyncFacts.
Variable fr : string -> string.

(** The three tests a record passes to be collected by the loop. *)
Definition sync_selects (q : CountQuery) (rid : string) (r : Row) : bool :=
  String.eqb (cell_str fr (numericise (restaurant_id r))) rid
  && String.eqb (py_lower (cell_str fr (numericise (status r)))) "pending"
  && match check_cells q rid (numericise (title r)) (numericise (offer_type r)) with
     | Some true => true
     | _ => false
     end.

Lemma sync_collect_cons q rid i r rs :
  sync_collect fr q rid i (r :: rs) =
  if sync_selects q rid r then i :: sync_collect fr q rid (S i) rs
  else sync_collect fr q rid (S i) rs.
Proof.
  unfold sync_selects; simpl.
  destruct (String.eqb (cell_str fr (numericise (restaurant_id r))) rid); simpl; [|reflexivity].
  destruct (String.eqb (py_lower (cell_str fr (numericise (status r)))) "pending"); simpl;
    [|reflexivity].
  destruct (check_cells q rid (numericise (title r)) (numericise (offer_type r))) as [[|]|];
    reflexivity.
Qed.

Lemma sync_collect_range q rid i recs n :
  In n (sync_collect fr q rid i recs) -> i <= n < i + List.length recs.
Proof.
  revert i; induction recs as [|r rs IH]; intros i H; [destruct H|].
  rewrite sync_collect_cons in H. simpl.
  destruct (sync_selects q rid r); [destruct H as [<-|H]; [lia|]|];
    specialize (IH (S i) H); lia.
Qed.

Lemma sync_collect_increasing q rid i recs :
  strictly_increasing (sync_collect fr q rid i recs) = true.
Proof.
  revert i; induction recs as [|r rs IH]; intros i; [reflexivity|].
  rewrite sync_collect_cons.
  destruct (sync_selects q rid r); [|apply IH].
  specialize (IH (S i)).
  destruct (sync_collect fr q rid (S i) rs) as [|b rest] eqn:E; [reflexivity|].
  change ((i <? b) && strictly_increasing (b :: rest) = true).
  rewrite IH, andb_true_r. apply Nat.ltb_lt.
  assert (Hb : In b (sync_collect fr q rid (S i) rs)) by (rewrite E; left; reflexivity).
  apply sync_collect_range in Hb. lia.
Qed.

Lemma sync_collect_selected q rid i recs n :
  In n (sync_collect fr q rid i recs) ->
  exists r, nth_error recs (n - i) = Some r /\ sync_selects q rid r = true.
Proof.
  revert i; induction recs as [|r rs IH]; intros i H; [destruct H|].
  pose proof (sync_collect_range _ _ _ _ _ H) as Hr.
  rewrite sync_collect_cons in H.
  destruct (sync_selects q rid r) eqn:Hs.
  - destruct H as [<-|H].
    + exists r. rewrite Nat.sub_diag. auto.
    + pose proof (sync_collect_range _ _ _ _ _ H).
      destruct (IH (S i) H) as (r' & Hn & Hs').
      exists r'. replace (n - i) with (S (n - S i)) by lia. auto.
  - pose proof (sync_collect_range _ _ _ _ _ H).
    destruct (IH (S i) H) as (r' & Hn & Hs').
    exists r'. replace (n - i) with (S (n - S i)) by lia. auto.
Qed.

Lemma sync_collect_none q rid i recs :
  (forall r, In r recs -> sync_selects q rid r = false) ->
  sync_collect fr q rid i recs = [].
Proof.
  revert i; induction recs as [|r rs IH]; intros i H; [reflexivity|].
  rewrite sync_collect_cons, (H r (or_introl eq_refl)).
  apply IH. intros r' Hr'. apply H. right; exact Hr'.
Qed.

(** The records the loop leaves in place are all unselected. *)
Lemma sync_kept_unselected q rid i recs r :
  In r (keep_from (fun p => mem_nat p (sync_collect fr q rid i recs)) i recs) ->
  sync_selects q rid r = false.
Proof.
  revert i; induction recs as [|r0 rs IH]; intros i H; [destruct H|].
  assert (Hnot : forall j, In j (sync_collect fr q rid (S i) rs) -> j <> i)
    by (intros j Hj; apply sync_collect_range in Hj; lia).
  cbn [keep_from] in H. rewrite sync_collect_cons in H.
  destruct (sync_selects q rid r0) eqn:Hs.
  - unfold mem_nat in H at 1. simpl in H. rewrite Nat.eqb_refl in H. simpl in H.
    apply (IH (S i)).
    erewrite keep_from_ext; [exact H|].
    intros j Hj. unfold mem_nat. simpl.
    destruct (Nat.eqb_spec j i); [lia|reflexivity].
  - assert (Hm : mem_nat i (sync_collect fr q rid (S i) rs) = false).
    { apply not_true_is_false. intros Hex. apply existsb_exists in Hex as (n & Hn & Hin).
      apply Nat.eqb_eq in Hin. subst n. exact (Hnot i Hn eq_refl). }
    rewrite Hm in H. destruct H as [<-|H]; [exact Hs|].
    exact (IH (S i) H).
Qed.

Lemma ensure_headers_shape (ws : Worksheet) :
  _ensure_headers ws = HEADERS :: get_all_records ws.
Proof.
  destruct ws as [|h rest]; [reflexivity|]. simpl.
  destruct (Row_eq_dec h HEADERS) as [->|]; reflexivity.
Qed.

Lemma ensure_headers_idem (ws : Worksheet) :
  _ensure_headers (_ensure_headers ws) = _ensure_headers ws.
Proof.
  rewrite (ensure_headers_shape ws). simpl.
  destruct (Row_eq_dec HEADERS HEADERS); [reflexivity|congruence].
Qed.

(** With both the import and the worksheet available, the Reconciler
    returns normally with the collected lines removed. *)
Lemma sync_result (q : CountQuery) (rid rname : string) (ws : Worksheet) :
  let idx := sync_to_delete fr true true q rid ws in
  sync_offers_with_db fr true true q rid rname ws
  = (keep_from (fun p => mem_nat p idx) 1 (_ensure_headers ws),
     Some (match idx with [] => [] | _ => [MsgSynced (List.length idx)] end)).
Proof.
  intros idx. unfold sync_offers_with_db. simpl.
  rewrite delete_each_descending.
  - reflexivity.
  - apply sync_collect_increasing.
  - intros n Hn. unfold idx, sync_to_delete in Hn. simpl in Hn.
    apply sync_collect_range in Hn.
    rewrite ensure_headers_shape in *. simpl in *. lia.
Qed.

Lemma strictly_increasing_cons (a : nat) (l : list nat) :
  strictly_increasing l = true -> (forall n, In n l -> a < n) ->
  strictly_increasing (a :: l) = true.
Proof.
  intros Hs Hlt. destruct l as [|b l]; [reflexivity|].
  change ((a <? b) && strictly_increasing (b :: l) = true).
  rewrite Hs, andb_true_r. apply Nat.ltb_lt, Hlt. left; reflexivity.
Qed.

Lemma sync_to_delete_ge2 queries_ok ws_ok q rid ws n :
  In n (sync_to_delete fr queries_ok ws_ok q rid ws) -> 2 <= n.
Proof.
  unfold sync_to_delete. destruct (queries_ok && ws_ok); [|intros []].
  intros H. apply sync_collect_range in H. lia.
Qed.

Lemma sync_skipped (queries_ok ws_ok : bool) q rid rname ws :
  queries_ok && ws_ok = false ->
  sync_offers_with_db fr queries_ok ws_ok q rid rname ws = (ws, Some []).
Proof.
  unfold sync_offers_with_db.
  destruct queries_ok, ws_ok; simpl; congruence.
Qed.

Lemma sync_fst (queries_ok ws_ok : bool) q rid rname ws :
  fst (sync_offers_with_db fr queries_ok ws_ok q rid rname ws) =
  if queries_ok && ws_ok
  then keep_from (fun p => mem_nat p (sync_to_delete fr queries_ok ws_ok q rid ws)) 1
                 (_ensure_headers ws)
  else ws.
Proof.
  destruct (queries_ok && ws_ok) eqn:E.
  - apply andb_true_iff in E as [-> ->]. now rewrite sync_result.
  - now rewrite sync_skipped.
Qed.

Lemma sync_returns (queries_ok ws_ok : bool) q rid rname ws :
  snd (sync_offers_with_db fr queries_ok ws_ok q rid rname ws) <> None.
Proof.
  destruct (queries_ok && ws_ok) eqn:E.
  - apply andb_true_iff in E as [-> ->]. rewrite sync_result. simpl. discriminate.
  - rewrite sync_skipped by exact E. simpl. discriminate.
Qed.

Lemma ensure_headers_records (ws : Worksheet) :
  get_all_records (_ensure_headers ws) = get_all_records ws.
Proof. rewrite ensure_headers_shape. reflexivity. Qed.

Lemma ensure_headers_wellformed (ws : Worksheet) :
  hd_error ws = Some HEADERS -> _ensure_headers ws = ws.
Proof.
  destruct ws as [|h rest]; simpl; [discriminate|].
  intros [= ->]. destruct (Row_eq_dec HEADERS HEADERS); congruence.
Qed.

(** The worksheet after a reconciliation with both the import and the
    worksheet available: the header, then the records left in place. *)
Lemma sync_after_shape q rid rname ws :
  fst (sync_offers_with_db fr true true q rid rname ws) =
  HEADERS :: keep_from (fun p => mem_nat p (sync_collect fr q rid 2 (get_all_records ws)))
                       2 (get_all_records ws).
Proof.
  rewrite sync_fst. simpl. rewrite ensure_headers_shape.
  unfold sync_to_delete. simpl. rewrite ensure_headers_shape. simpl.
  assert (H1 : mem_nat 1 (sync_collect fr q rid 2 (get_all_records ws)) = false).
  { apply not_true_is_false. intros Hex. apply existsb_exists in Hex as (n & Hn & Hin).
    apply Nat.eqb_eq in Hin. subst n. apply sync_collect_range in Hn. lia. }
  now rewrite H1.
Qed.

End SyncFacts.

(** ** C4 *)

(** Claim C4: the Reconciler deletes a line only if the existence check
    for its record succeeded with a positive count, and exactly the lines
    so selected go; when the relational store is unavailable (every
    existence query raises) it returns normally, deletes nothing and leaves
    the records as they were (and the whole worksheet, when its header
    line is already [HEADERS]). *)
Theorem reconciler_deletes_only_positive_matches (fr : string -> string)
  (queries_ok ws_ok : bool) (q : CountQuery) (rid rname : string) (ws : Worksheet) :
  (forall n, In n (sync_to_delete fr queries_ok ws_ok q rid ws) ->
     exists r, nth_error (get_all_records ws) (n - 2) = Some r
               /\ check_cells q rid (numericise (title r)) (numericise (offer_type r)) = Some true
               /\ check_offer_exists_in_db q rid (title r) (offer_type r) = Some true) /\
  fst (sync_offers_with_db fr queries_ok ws_ok q rid rname ws) =
    (if queries_ok && ws_ok
     then keep_from (fun p => mem_nat p (sync_to_delete fr queries_ok ws_ok q rid ws)) 1
                    (_ensure_headers ws)
     else ws) /\
  ((forall t ty, q rid t ty = None) ->
     sync_to_delete fr queries_ok ws_ok q rid ws = [] /\
     snd (sync_offers_with_db fr queries_ok ws_ok q rid rname ws) = Some [] /\
     get_all_records (fst (sync_offers_with_db fr queries_ok ws_ok q rid rname ws))
       = get_all_records ws /\
     (hd_error ws = Some HEADERS ->
        fst (sync_offers_with_db fr queries_ok ws_ok q rid rname ws) = ws)).
Proof.
  split; [|split].
  - intros n Hn. unfold sync_to_delete in Hn.
    destruct (queries_ok && ws_ok); [|destruct Hn].
    apply sync_collect_selected in Hn as (r & Hr & Hs).
    rewrite ensure_headers_records in Hr.
    exists r. split; [exact Hr|].
    unfold sync_selects in Hs.
    destruct (check_cells q rid (numericise (title r)) (numericise (offer_type r)))
      as [[|]|] eqn:Ec; rewrite ?andb_false_r in Hs; try congruence.
    split; [reflexivity|].
    unfold check_cells in Ec.
    destruct (numericise (title r)) eqn:Et; try discriminate;
      destruct (numericise (offer_type r)) eqn:Ety; try discriminate.
    apply numericise_text in Et, Ety. subst. exact Ec.
  - apply sync_fst.
  - intros Hdown.
    assert (Hnil : sync_to_delete fr queries_ok ws_ok q rid ws = []).
    { unfold sync_to_delete. destruct (queries_ok && ws_ok); [|reflexivity].
      apply sync_collect_none. intros r _. unfold sync_selects, check_cells.
      destruct (numericise (title r)), (numericise (offer_type r));
        try (unfold check_offer_exists_in_db; rewrite Hdown); apply andb_false_r. }
    destruct (queries_ok && ws_ok) eqn:E.
    + apply andb_true_iff in E as [-> ->].
      rewrite sync_result. rewrite Hnil. simpl.
      rewrite (keep_from_nothing _ 1 (_ensure_headers ws)) by reflexivity.
      split; [reflexivity|]. split; [reflexivity|]. split.
      * apply ensure_headers_records.
      * apply ensure_headers_wellformed.
    + rewrite sync_skipped by exact E. simpl. auto.
Qed.

(** ** C5 *)

(** Claim C5: reconciliation is idempotent: a second run right after the
    first, against the same database answers and availability, has nothing
    to delete and leaves the worksheet as the first run left it. *)
Theorem reconciler_idempotent (fr : string -> string)
  (queries_ok ws_ok : bool) (q : CountQuery) (rid rname : string) (ws : Worksheet) :
  let ws1 := fst (sync_offers_with_db fr queries_ok ws_ok q rid rname ws) in
  sync_to_delete fr queries_ok ws_ok q rid ws1 = [] /\
  sync_offers_with_db fr queries_ok ws_ok q rid rname ws1 = (ws1, Some []).
Proof.
  intros ws1.
  destruct (queries_ok && ws_ok) eqn:E.
  2:{ unfold sync_to_delete. rewrite E. split; [reflexivity|].
      now apply sync_skipped. }
  apply andb_true_iff in E as [-> ->].
  assert (Hnil : sync_to_delete fr true true q rid ws1 = []).
  { unfold sync_to_delete, ws1. simpl. rewrite sync_after_shape.
    rewrite ensure_headers_wellformed by reflexivity. simpl.
    apply sync_collect_none. intros r Hr. exact (sync_kept_unselected _ _ _ _ _ _ Hr). }
  split; [exact Hnil|].
  rewrite sync_result, Hnil. simpl.
  rewrite keep_from_nothing by reflexivity.
  unfold ws1. rewrite sync_after_shape.
  rewrite ensure_headers_wellformed by reflexivity. reflexivity.
Qed.

(* ------------------------------------------------------------------ *)
(** ** Invariants of the Writer and of the batch loop *)

(** [inv P m]: every run of [m] relates the connection before and after
    by [P]. *)
Definition inv (P : Conn -> Conn -> Prop) {A} (m : M A) : Prop :=
  forall w, P (conn w) (conn (fst (m w))).

Class PreOrderConn (P : Conn -> Conn -> Prop) := {
  pc_refl : forall c, P c c;
  pc_trans : forall c1 c2 c3, P c1 c2 -> P c2 c3 -> P c1 c3
}.

Section Inv.
Context (P : Conn -> Conn -> Prop) `{PreOrderConn P}.

Lemma inv_ret {A} (a : A) : inv P (ret a).
Proof. intros w. apply pc_refl. Qed.

Lemma inv_raise {A} (e : Exn) : inv P (@raise A e).
Proof. intros w. apply pc_refl. Qed.

Lemma inv_print (m : Msg) : inv P (print m).
Proof. intros w. apply pc_refl. Qed.

Lemma inv_bind {A B} (c : M A) (k : A -> M B) :
  inv P c -> (forall a, inv P (k a)) -> inv P (bind c k).
Proof.
  intros Hc Hk w. unfold bind. specialize (Hc w).
  destruct (c w) as [w' [a|e]] eqn:E; simpl in *.
  - eapply pc_trans; [exact Hc|]. apply Hk.
  - exact Hc.
Qed.

Lemma inv_bind_lift {A B} (e : Exn) (o : option A) (k : A -> M B) :
  (forall a, o = Some a -> inv P (k a)) -> inv P (bind (lift_opt e o) k).
Proof.
  intros Hk w. destruct o as [a|]; simpl.
  - apply (Hk a eq_refl).
  - apply pc_refl.
Qed.

Lemma inv_bind_dict {B} (j : Json) (k : list (string * Json) -> M B) :
  (forall kvs, j = JObj kvs -> inv P (k kvs)) -> inv P (bind (as_dict j) k).
Proof.
  intros Hk w. destruct j; simpl; try apply pc_refl.
  apply (Hk kvs eq_refl).
Qed.

Lemma inv_lift_opt {A} (e : Exn) (o : option A) : inv P (lift_opt e o).
Proof. intros w. destruct o; apply pc_refl. Qed.

Lemma inv_try {A} (c : M A) : inv P c -> inv P (try_ c).
Proof. intros Hc w. unfold try_. specialize (Hc w). destruct (c w); exact Hc. Qed.

Lemma inv_execute {A} (accepts : bool) (change : Conn -> Conn * A) :
  (forall c, aborted c = false -> accepts = true -> P c (fst (change c))) ->
  (forall c, aborted c = false -> accepts = false ->
             P c (mkConn (committed c) (work c) true (seq c))) ->
  inv P (execute accepts change).
Proof.
  intros Hok Hko w. unfold execute, bind, get_conn. simpl.
  destruct (aborted (conn w)) eqn:Ea; [apply pc_refl|].
  destruct accepts eqn:Eacc.
  - destruct (change (conn w)) as [c' a] eqn:Ec. simpl.
    specialize (Hok (conn w) Ea eq_refl). rewrite Ec in Hok. exact Hok.
  - simpl. apply Hko; auto.
Qed.

End Inv.

(** The open transaction only grows: statements append to it, a failed
    statement marks it aborted, and the committed state stays. *)
Definition grows (c c' : Conn) : Prop :=
  committed c' = committed c /\
  (exists l, offers (work c') = offers (work c) ++ l) /\
  (exists l, surprise_bags (work c') = surprise_bags (work c) ++ l) /\
  (aborted c = true -> c' = c).

#[export] Instance grows_preorder : PreOrderConn grows.
Proof.
  split.
  - intros c. split; [reflexivity|]. split; [exists []; symmetry; apply app_nil_r|].
    split; [exists []; symmetry; apply app_nil_r|]. auto.
  - intros c1 c2 c3 (H1 & [l1 Ho1] & [m1 Hb1] & Ha1) (H2 & [l2 Ho2] & [m2 Hb2] & Ha2).
    split; [congruence|]. split; [exists (l1 ++ l2); rewrite Ho2, Ho1, app_assoc; reflexivity|].
    split; [exists (m1 ++ m2); rewrite Hb2, Hb1, app_assoc; reflexivity|].
    intros Hab. specialize (Ha1 Hab). subst c2. apply Ha2, Hab.
Qed.

(** The text of a cell read as text is the cell as written. *)
Ltac cell_texts :=
  repeat match goal with
         | E : numericise ?s = CText ?t |- _ =>
             is_var t; pose proof (numericise_text _ _ E); subst t
         end.

Section WriterFacts.
Variable st : Store.
Variable loads : Loader.

Ltac inv_steps :=
  repeat first
    [ apply inv_ret; exact _ | apply inv_raise; exact _ | apply inv_print; exact _
    | apply inv_lift_opt; exact _
    | apply inv_execute; [exact _ | intros ? ? ? | intros ? ? ?]
    | apply inv_bind_lift; [exact _ | intros ? ?]
    | apply inv_bind_dict; [exact _ | intros ? ?]
    | match goal with
      | |- inv _ (bind (match ?x with _ => _ end) _) => destruct x eqn:?
      end
    | apply inv_bind; [exact _ | | intros ?]
    | match goal with
      | |- inv _ (match ?x with _ => _ end) => destruct x eqn:?
      | |- inv _ (if ?b then _ else _) => destruct b
      end ].

(** A text [numericise] hands back is the cell's own: rewrite it so. *)

Lemma insert_offer_to_db_grows (r : Row) : inv grows (insert_offer_to_db st loads r).
Proof.
  unfold insert_offer_to_db, get_offer_type_id, insert_offer, insert_bag, loads_cell.
  inv_steps;
    try (split; [reflexivity|]; simpl;
         split; [eexists; first [reflexivity | symmetry; apply app_nil_r]|];
         split; [eexists; first [reflexivity | symmetry; apply app_nil_r]|];
         congruence).
Qed.

(** The offers and surprise bags a statement sequence adds to the open
    transaction satisfy [Po] and [Pb]. *)
Definition appends (Po : OfferIns -> Prop) (Pb : BagIns -> Prop) (c c' : Conn) : Prop :=
  exists lo lb, offers (work c') = offers (work c) ++ lo
                /\ surprise_bags (work c') = surprise_bags (work c) ++ lb
                /\ Forall (fun p => Po (snd p)) lo /\ Forall Pb lb.

#[export] Instance appends_preorder Po Pb : PreOrderConn (appends Po Pb).
Proof.
  split.
  - intros c. exists [], []. rewrite !app_nil_r. auto.
  - intros c1 c2 c3 (lo1 & lb1 & Ho1 & Hb1 & Fo1 & Fb1) (lo2 & lb2 & Ho2 & Hb2 & Fo2 & Fb2).
    exists (lo1 ++ lo2), (lb1 ++ lb2).
    rewrite Ho2, Ho1, Hb2, Hb1, !app_assoc.
    split; [reflexivity|]. split; [reflexivity|].
    split; apply Forall_app; auto.
Qed.

(** The time and date columns of an offer inserted for [r]. *)
Definition offer_from_row (r : Row) (o : OfferIns) : Prop :=
  o_valid_start_time o = cell_or_none (numericise (valid_start_time r))
  /\ o_valid_end_time o = cell_or_none (numericise (valid_end_time r))
  /\ o_end_date o = cell_or_none (numericise (end_date r)).

(** The columns of a surprise bag inserted for [r]: taken from the
    object the text of [surprise_bag_data] decodes to. *)
Definition bag_from_row (r : Row) (b : BagIns) : Prop :=
  exists kvs, numericise (surprise_bag_data r) = CText (surprise_bag_data r)
    /\ loads (surprise_bag_data r) = Some (JObj kvs)
    /\ py_subscript kvs "price" = Some (b_price b)
    /\ py_subscript kvs "estimated_value" = Some (b_estimated_value b)
    /\ b_daily_quantity b = py_get kvs "daily_quantity"
    /\ b_current_daily_quantity b = py_get kvs "daily_quantity"
    /\ b_total_quantity b = py_get kvs "total_quantity".

Lemma insert_offer_to_db_appends (r : Row) :
  inv (appends (offer_from_row r) (bag_from_row r)) (insert_offer_to_db st loads r).
Proof.
  unfold insert_offer_to_db, get_offer_type_id, insert_offer, insert_bag, loads_cell.
  inv_steps; cell_texts; simpl;
    (eexists _, _; split; [first [reflexivity | symmetry; apply app_nil_r]|];
     split; [first [reflexivity | symmetry; apply app_nil_r]|];
     split; repeat constructor).
  all: unfold bag_from_row; simpl; subst; eexists; repeat split; eauto.
Qed.

Ltac solve_leaf :=
  solve [ reflexivity | assumption
        | unfold offer_from_row; simpl; repeat split; reflexivity
        | unfold bag_from_row; simpl; eexists; repeat split; eassumption ].

Ltac solve_disj :=
  lazymatch goal with
  | |- _ \/ _ => first [ solve [left; solve_disj] | solve [right; solve_disj] ]
  | |- exists _, _ => eexists; solve_disj
  | |- _ /\ _ => split; [solve_disj | solve_disj]
  | |- _ => solve_leaf
  end.

(** Every outcome of one call of [insert_offer_to_db]. *)
Lemma insert_offer_to_db_cases (r : Row) (w : World) :
  let '(w', res) := insert_offer_to_db st loads r w in
  let c := conn w in
  (aborted c = true /\ conn w' = c /\ res = Raise ExnInFailedTx) \/
  (aborted c = false /\
   ((conn w' = c /\ (res = Ok None \/ res = Raise ExnJson \/ res = Raise ExnType)) \/
    (conn w' = mark_aborted c /\ res = Raise ExnSql) \/
    (exists o,
      ((conn w' = add_offer c o /\
          (res = Ok (Some (seq c)) \/ exists e, res = Raise e /\ python_exn e = true)) \/
       (conn w' = mark_aborted (add_offer c o) /\ res = Raise ExnSql) \/
       (exists b, conn w' = add_bag (add_offer c o) b /\ res = Ok (Some (seq c))
                  /\ bag_from_row r b /\ b_offer_id b = seq c))
      /\ offer_from_row r o))).
Proof.
  unfold insert_offer_to_db, get_offer_type_id, insert_offer, insert_bag, loads_cell, execute,
    bind, get_conn, set_conn, ret, raise, print, lift_opt, as_dict.
  destruct w as [[cm cw ca cs] out0]. simpl.
  destruct ca; destruct (numericise (offer_type r)) as [ty| |] eqn:Ety; simpl.
  all: repeat match goal with
              | |- context [match ?x with _ => _ end] =>
                  lazymatch type of x with
                  | prod _ _ => fail
                  | _ => destruct x eqn:?; simpl
                  end
              end.
  all: cell_texts.
  all: solve_disj.
Qed.


Lemma process_record_run (r : Row) (w : World) :
  process_record st loads r w =
  let '(w', res) := insert_offer_to_db st loads r
                      (mkWorld (conn w) (out w ++ [MsgProcessing (title r) (restaurant_name r)])) in
  (w', Ok res).
Proof. reflexivity. Qed.

Lemma approve_loop_grows (i : nat) (recs : list Row) (acc : list nat) (cnt : nat) :
  inv grows (approve_loop st loads i recs acc cnt).
Proof.
  revert i acc cnt; induction recs as [|r rs IH]; intros i acc cnt; simpl.
  - apply inv_ret; exact _.
  - destruct (String.eqb (status r) "pending"); [|apply IH].
    apply inv_bind; try exact _.
    + apply inv_try; try exact _. apply inv_bind; try exact _; [apply inv_print; exact _|].
      intros _. apply insert_offer_to_db_grows.
    + intros [[oid|]|e]; [destruct (Z.eqb oid 0)| |];
        (apply inv_bind; try exact _; [apply inv_print; exact _|intros _; apply IH]).
Qed.

Lemma approve_loop_shape (i : nat) (recs : list Row) (acc : list nat) (cnt : nat) (w : World) :
  exists w' new,
    approve_loop st loads i recs acc cnt w = (w', Ok (acc ++ new, cnt + List.length new))
    /\ strictly_increasing new = true
    /\ (forall n, In n new -> i <= n < i + List.length recs).
Proof.
  revert i acc cnt w; induction recs as [|r rs IH]; intros i acc cnt w; simpl.
  - exists w, []. rewrite app_nil_r, Nat.add_0_r. split; [reflexivity|]. split; [reflexivity|].
    intros n [].
  - destruct (String.eqb (status r) "pending").
    2:{ destruct (IH (S i) acc cnt w) as (w' & new & Hrun & Hs & Hr).
        exists w', new. split; [exact Hrun|]. split; [exact Hs|].
        intros n Hn. specialize (Hr n Hn). lia. }
    unfold bind at 1. rewrite process_record_run.
    destruct (insert_offer_to_db st loads r _) as [w1 res].
    destruct res as [[oid|]|e]; [destruct (Z.eqb oid 0)| |]; unfold bind, print; simpl.
    2:{ destruct (IH (S i) (acc ++ [i]) (S cnt) (mkWorld (conn w1) (out w1 ++ [MsgCreated oid])))
          as (w' & new & Hrun & Hs & Hr).
        exists w', (i :: new). rewrite Hrun, <- app_assoc. simpl.
        split; [do 3 f_equal; lia|]. split.
        - apply strictly_increasing_cons; [exact Hs|]. intros n Hn. specialize (Hr n Hn). lia.
        - intros n [<-|Hn]; [lia|]. specialize (Hr n Hn). lia. }
    all: match goal with
         | |- exists _ _, approve_loop _ _ _ _ _ _ ?w0 = _ /\ _ =>
             destruct (IH (S i) acc cnt w0) as (w' & new & Hrun & Hs & Hr);
             exists w', new; split; [exact Hrun|]; split; [exact Hs|];
             intros n Hn; specialize (Hr n Hn); lia
         end.
Qed.

(** [approve_offers] when it reaches its batch loop: the commit, the
    deletion of the collected lines from the highest down, and the final
    report. *)
Lemma approve_offers_run (ws : Worksheet) (response : string) (connect_ok : bool) (c0 : Conn) :
  approve_proceeds ws response connect_ok = true ->
  exists w3 rows n,
    approve_loop st loads 2 (get_all_records ws) [] 0 (approve_start_world c0 ws)
      = (w3, Ok (rows, n))
    /\ n = List.length rows
    /\ strictly_increasing rows = true
    /\ (forall p, In p rows -> 2 <= p < 2 + List.length (get_all_records ws))
    /\ approve_offers st loads ws response connect_ok c0
       = (keep_from (fun p => mem_nat p rows) 1 ws,
          mkWorld (commit (conn w3))
                  (out w3 ++ [MsgCommitted; MsgCleaning; MsgApproved n; MsgRemoved n])).
Proof.
  unfold approve_proceeds, approve_offers, approve_start_world.
  destruct (filter (fun r => String.eqb (status r) "pending") (get_all_records ws)) as [|p ps] eqn:Ep;
    [discriminate|].
  destruct (String.eqb (py_lower response) "y"); [|discriminate].
  destruct connect_ok; [|discriminate]. intros _. simpl.
  destruct (approve_loop_shape 2 (get_all_records ws) [] 0
              (mkWorld c0 [MsgConnectingSheets; MsgFound (List.length (p :: ps)); MsgConnectingDb]))
    as (w3 & rows & Hrun & Hs & Hr).
  simpl in Hrun. exists w3, rows, (List.length rows).
  split; [exact Hrun|]. split; [reflexivity|]. split; [exact Hs|]. split; [exact Hr|].
  rewrite Hrun. simpl.
  rewrite delete_each_descending; [|exact Hs|].
  { simpl. rewrite <- !app_assoc. reflexivity. }
  intros n Hn. specialize (Hr n Hn).
  destruct ws as [|h recs]; simpl in *; lia.
Qed.

Lemma approve_offers_skip (ws : Worksheet) (response : string) (connect_ok : bool) (c0 : Conn) :
  approve_proceeds ws response connect_ok = false ->
  fst (approve_offers st loads ws response connect_ok c0) = ws
  /\ conn (snd (approve_offers st loads ws response connect_ok c0)) = c0.
Proof.
  unfold approve_proceeds, approve_offers.
  destruct (filter (fun r => String.eqb (status r) "pending") (get_all_records ws)); [auto|].
  destruct (String.eqb (py_lower response) "y"); simpl; [|auto].
  destruct connect_ok; simpl; [discriminate|auto].
Qed.

End WriterFacts.

(* ------------------------------------------------------------------ *)
(** * The claims about the Writer and the Approval Batch Runner *)

Ltac in_list := repeat (first [left; reflexivity | right]).

(** ** C6 *)




(** ** C7 *)

(** Claim C7: every offer [insert_offer_to_db] inserts for a record
    carries [None] (SQL NULL) for each of [valid_start_time],
    [valid_end_time] and [end_date] whose cell is the empty string, and the
    cell's text otherwise; the record [row_empty_times], whose time and
    end-date cells are empty, is inserted with all three [None]. *)
Theorem empty_cells_insert_null (st : Store) (loads : Loader) (r : Row) (w : World) :
  (exists lo, offers (work (conn (fst (insert_offer_to_db st loads r w))))
              = offers (work (conn w)) ++ lo
      /\ Forall (fun p =>
           (valid_start_time r = "" -> o_valid_start_time (snd p) = None) /\
           (valid_end_time r = "" -> o_valid_end_time (snd p) = None) /\
           (end_date r = "" -> o_end_date (snd p) = None) /\
           offer_from_row r (snd p)) lo) /\
  (exists o, offers (work (conn (fst (insert_offer_to_db sample_store json_loads
                                         row_empty_times sample_world)))) = [(1%Z, o)]
      /\ o_valid_start_time o = None /\ o_valid_end_time o = None /\ o_end_date o = None).
Proof.
  split.
  - destruct (insert_offer_to_db_appends st loads r w) as (lo & lb & Ho & _ & Fo & _).
    exists lo. split; [exact Ho|].
    eapply Forall_impl; [|exact Fo].
    intros [id o] (H1 & H2 & H3); simpl in *.
    rewrite H1, H2, H3. unfold cell_or_none.
    repeat split; try (intros ->; reflexivity); assumption.
  - eexists. split; [vm_compute; reflexivity|]. vm_compute. auto.
Qed.

(** ** C2 *)

(** Claim C2, against the code: the offer insert and the bag insert share
    the run's one transaction, with no savepoint or rollback around a row.
    A run over one surprise-bag record whose bag data has no [price]
    inserts the Offer, then [kvs['price']] raises [KeyError]; the error is
    caught in the loop, and the single commit keeps the Offer with no
    SurpriseBag, while the record stays in the worksheet. *)
Lemma bag_failure_commits_offer_alone :
  let '(ws', w') := approve_offers sample_store json_loads [HEADERS; row_bag_no_price] "y" true
                      sample_conn in
  committed (conn w') = mkDB [(1%Z, offer_bag_no_price)] []
  /\ ws' = [HEADERS; row_bag_no_price]
  /\ In (MsgRowError (title row_bag_no_price) (ExnKey "price")) (out w').
Proof. vm_compute. split; [reflexivity|]. split; [reflexivity|]. in_list. Qed.

(** ** C8 *)



(** ** C1 *)

(** Claim C1, checked against the code: whenever the batch loop leaves
    the transaction aborted (a row's statement was rejected by the
    database), the single [conn.commit()] becomes a rollback and the
    committed database is the one the run started from: the offers of the
    rows processed successfully before are lost, while their lines are
    still deleted from the worksheet and counted as approved. The run over
    [row_a] (accepted) then [row_no_time] (start time [None], refused by
    the store) commits nothing, deletes [row_a]'s line and reports one
    approved offer. *)
Theorem single_commit_loses_earlier_successes :
  (forall (st : Store) (loads : Loader) (ws : Worksheet) (response : string)
          (connect_ok : bool) (c0 : Conn),
     approve_proceeds ws response connect_ok = true ->
     exists w3 rows,
       approve_loop st loads 2 (get_all_records ws) [] 0 (approve_start_world c0 ws)
         = (w3, Ok (rows, List.length rows))
       /\ fst (approve_offers st loads ws response connect_ok c0)
            = keep_from (fun p => mem_nat p rows) 1 ws
       /\ In (MsgApproved (List.length rows)) (out (snd (approve_offers st loads ws response connect_ok c0)))
       /\ (aborted (conn w3) = true ->
           committed (conn (snd (approve_offers st loads ws response connect_ok c0))) = committed c0))
  /\
  (let '(ws', w') := approve_offers sample_store json_loads [HEADERS; row_a; row_no_time] "y" true
                       sample_conn in
   ws' = [HEADERS; row_no_time]
   /\ committed (conn w') = empty_db
   /\ In (MsgCreated 1%Z) (out w')
   /\ In (MsgRowError (title row_no_time) ExnSql) (out w')
   /\ In (MsgApproved 1) (out w')).
Proof.
  split.
  - intros st loads ws response connect_ok c0 Hp.
    destruct (approve_offers_run st loads ws response connect_ok c0 Hp)
      as (w3 & rows & n & Hrun & -> & _ & _ & Hres).
    exists w3, rows. rewrite Hres. simpl.
    split; [exact Hrun|]. split; [reflexivity|]. split.
    + apply in_or_app. right. right. right. left. reflexivity.
    + intros Hab. unfold commit. rewrite Hab. simpl.
      destruct (approve_loop_grows st loads 2 (get_all_records ws) [] 0 (approve_start_world c0 ws))
        as (Hc & _).
      rewrite Hrun in Hc. exact Hc.
  - vm_compute. split; [reflexivity|]. split; [reflexivity|].
    split; [in_list|]. split; in_list.
Qed.

(** ** C3 *)

(** Claim C3: both deleters issue their [delete_rows] calls one by one
    over the collected lines sorted highest first, so in strictly
    descending line order, all below the header; the worksheet they leave
    is the old one with exactly the collected lines removed, the others
    kept in order. The Reconciler deletes the lines of [sync_to_delete]
    from the worksheet [_ensure_headers] left. The Approval Batch Runner
    deletes the list its batch loop collected, and nothing when it stops
    before the loop. Deleting lines 2, 3, 5 and 7 of nine, highest first,
    leaves 1, 4, 6, 8 and 9. *)
Theorem deletions_descending_exact :
  (forall (fr : string -> string) (queries_ok ws_ok : bool) (q : CountQuery)
          (rid rname : string) (ws : Worksheet),
     strictly_decreasing (rev (sync_to_delete fr queries_ok ws_ok q rid ws)) = true
     /\ (forall n, In n (sync_to_delete fr queries_ok ws_ok q rid ws) ->
           2 <= n <= List.length (_ensure_headers ws))
     /\ delete_each (rev (sync_to_delete fr queries_ok ws_ok q rid ws)) (_ensure_headers ws)
          = (keep_from (fun p => mem_nat p (sync_to_delete fr queries_ok ws_ok q rid ws)) 1
                       (_ensure_headers ws), true)
     /\ fst (sync_offers_with_db fr queries_ok ws_ok q rid rname ws)
          = (if queries_ok && ws_ok
             then keep_from (fun p => mem_nat p (sync_to_delete fr queries_ok ws_ok q rid ws)) 1
                            (_ensure_headers ws)
             else ws))
  /\
  (forall (st : Store) (loads : Loader) (ws : Worksheet) (response : string)
          (connect_ok : bool) (c0 : Conn),
     (approve_proceeds ws response connect_ok = false ->
        fst (approve_offers st loads ws response connect_ok c0) = ws)
     /\
     (approve_proceeds ws response connect_ok = true ->
        exists w3 rows,
          approve_loop st loads 2 (get_all_records ws) [] 0 (approve_start_world c0 ws)
            = (w3, Ok (rows, List.length rows))
          /\ strictly_decreasing (rev rows) = true
          /\ (forall p, In p rows -> 2 <= p <= List.length ws)
          /\ fst (approve_offers st loads ws response connect_ok c0)
               = fst (delete_each (rev rows) ws)
          /\ delete_each (rev rows) ws = (keep_from (fun p => mem_nat p rows) 1 ws, true)))
  /\
  delete_each [7; 5; 3; 2] [1; 2; 3; 4; 5; 6; 7; 8; 9] = ([1; 4; 6; 8; 9], true).
Proof.
  split; [|split].
  - intros fr queries_ok ws_ok q rid rname ws.
    assert (Hs : strictly_increasing (sync_to_delete fr queries_ok ws_ok q rid ws) = true).
    { unfold sync_to_delete.
      destruct (queries_ok && ws_ok); [apply sync_collect_increasing|reflexivity]. }
    assert (Hr : forall n, In n (sync_to_delete fr queries_ok ws_ok q rid ws) ->
                   2 <= n <= List.length (_ensure_headers ws)).
    { intros n Hn. unfold sync_to_delete in Hn.
      destruct (queries_ok && ws_ok); [|destruct Hn].
      apply sync_collect_range in Hn. rewrite ensure_headers_shape in *. simpl in *. lia. }
    split; [apply strictly_increasing_rev, Hs|]. split; [exact Hr|]. split.
    + apply delete_each_descending; [exact Hs|]. intros n Hn. specialize (Hr n Hn). lia.
    + apply sync_fst.
  - intros st loads ws response connect_ok c0. split.
    + intros Ep. apply (approve_offers_skip st loads ws response connect_ok c0 Ep).
    + intros Ep.
      destruct (approve_offers_run st loads ws response connect_ok c0 Ep)
        as (w3 & rows & n & Hrun & -> & Hs & Hr & Hres).
      assert (Hr' : forall p, In p rows -> 2 <= p <= List.length ws).
      { intros p Hp. specialize (Hr p Hp). destruct ws; simpl in *; lia. }
      assert (Hd : delete_each (rev rows) ws = (keep_from (fun p => mem_nat p rows) 1 ws, true)).
      { apply delete_each_descending; [exact Hs|]. intros p Hp. specialize (Hr' p Hp). lia. }
      exists w3, rows. split; [exact Hrun|]. split; [apply strictly_increasing_rev, Hs|].
      split; [exact Hr'|]. split; [rewrite Hres, Hd; reflexivity|exact Hd].
  - reflexivity.
Qed.

(** ** C9 *)

(** Claim C9, as the code has it: a run that reaches its report (some
    record pending, the operator answered [y], the connection opened)
    ends with exactly two lines, both carrying the number [n] of lines its
    batch loop collected: distinct lines below the header, each one
    deleted from the worksheet, which ends [n] lines shorter. No count of
    failed records is reported. *)
Theorem final_report_counts_approved_only (st : Store) (loads : Loader) (ws : Worksheet)
  (response : string) (connect_ok : bool) (c0 : Conn) :
  approve_proceeds ws response connect_ok = true ->
  exists w3 rows,
    approve_loop st loads 2 (get_all_records ws) [] 0 (approve_start_world c0 ws)
      = (w3, Ok (rows, List.length rows))
    /\ strictly_increasing rows = true
    /\ (forall p, In p rows -> 2 <= p <= List.length ws)
    /\ final_report (out (snd (approve_offers st loads ws response connect_ok c0)))
         = [MsgApproved (List.length rows); MsgRemoved (List.length rows)]
    /\ fst (approve_offers st loads ws response connect_ok c0)
         = keep_from (fun p => mem_nat p rows) 1 ws
    /\ List.length (fst (approve_offers st loads ws response connect_ok c0)) + List.length rows
         = List.length ws.
Proof.
  intros Hp.
  destruct (approve_offers_run st loads ws response connect_ok c0 Hp)
    as (w3 & rows & n & Hrun & -> & Hs & Hr & Hres).
  assert (Hr' : forall p, In p rows -> 2 <= p <= List.length ws).
  { intros p Hp'. specialize (Hr p Hp'). destruct ws; simpl in *; lia. }
  assert (Hd : delete_each (rev rows) ws = (keep_from (fun p => mem_nat p rows) 1 ws, true)).
  { apply delete_each_descending; [exact Hs|]. intros p Hp'. specialize (Hr' p Hp'). lia. }
  exists w3, rows. rewrite Hres. simpl.
  split; [exact Hrun|]. split; [exact Hs|]. split; [exact Hr'|].
  split; [unfold final_report; rewrite rev_app_distr; reflexivity|]. split; [reflexivity|].
  apply delete_each_length in Hd. rewrite length_rev in Hd. exact Hd.
Qed.

Lemma final_report_counts_approved_only_witness :
  approve_proceeds [HEADERS; row_a; row_b] "y" true = true /\
  exists w3 rows,
    approve_loop sample_store json_loads 2 (get_all_records [HEADERS; row_a; row_b]) [] 0
      (approve_start_world sample_conn [HEADERS; row_a; row_b])
      = (w3, Ok (rows, List.length rows))
    /\ strictly_increasing rows = true
    /\ (forall p, In p rows -> 2 <= p <= List.length [HEADERS; row_a; row_b])
    /\ final_report (out (snd (approve_offers sample_store json_loads [HEADERS; row_a; row_b] "y"
                                true sample_conn)))
         = [MsgApproved (List.length rows); MsgRemoved (List.length rows)]
    /\ fst (approve_offers sample_store json_loads [HEADERS; row_a; row_b] "y" true sample_conn)
         = keep_from (fun p => mem_nat p rows) 1 [HEADERS; row_a; row_b]
    /\ List.length (fst (approve_offers sample_store json_loads [HEADERS; row_a; row_b] "y" true
                          sample_conn)) + List.length rows
         = List.length [HEADERS; row_a; row_b].
Proof.
  split; [vm_compute; reflexivity|].
  apply final_report_counts_approved_only. vm_compute. reflexivity.
Defined.

(** Against claim C9: the run over [row_a] and the unknown-type [row_b]
    (one approved, one failed) and the run over [row_a] alone (one
    approved, none failed) end with the same report, which states no
    failure count. *)
Lemma final_report_hides_failures :
  final_report (out (snd (approve_offers sample_store json_loads [HEADERS; row_a; row_b] "y" true
                            sample_conn)))
  = final_report (out (snd (approve_offers sample_store json_loads [HEADERS; row_a] "y" true
                              sample_conn)))
  /\ final_report (out (snd (approve_offers sample_store json_loads [HEADERS; row_a; row_b] "y" true
                              sample_conn)))
     = [MsgApproved 1; MsgRemoved 1]
  /\ In (MsgFailedCreate (title row_b))
        (out (snd (approve_offers sample_store json_loads [HEADERS; row_a; row_b] "y" true sample_conn))).
Proof. vm_compute. split; [reflexivity|]. split; [reflexivity|]. in_list. Qed.

(* ------------------------------------------------------------------ *)
(** * The claim about reading pending offers *)

Section PendingFacts.
Variable fr : string -> string.
Variable loads : Loader.

Lemma pending_loop_app (rid : string) (a b : list Row) :
  pending_loop fr loads rid (a ++ b) = pending_loop fr loads rid a ++ pending_loop fr loads rid b.
Proof.
  induction a as [|r a IH]; simpl; [reflexivity|].
  destruct (negb (String.eqb (cell_str fr (numericise (restaurant_id r))) rid)); [exact IH|].
  destruct (negb (String.eqb (py_lower (cell_str fr (numericise (status r)))) "pending"));
    [exact IH|].
  destruct (normalize_pending fr loads r); [rewrite IH|]; auto.
Qed.

Lemma pending_loop_in (rid : string) (recs : list Row) (p : PendingOffer) :
  In p (pending_loop fr loads rid recs) ->
  exists r, In r recs /\ cell_str fr (numericise (restaurant_id r)) = rid
            /\ py_lower (cell_str fr (numericise (status r))) = "pending"
            /\ normalize_pending fr loads r = Some p.
Proof.
  induction recs as [|r rs IH]; simpl; [intros []|].
  destruct (String.eqb (cell_str fr (numericise (restaurant_id r))) rid) eqn:Er; simpl.
  2:{ intros H. destruct (IH H) as (r' & ? & ?). exists r'. tauto. }
  destruct (String.eqb (py_lower (cell_str fr (numericise (status r)))) "pending") eqn:Es; simpl.
  2:{ intros H. destruct (IH H) as (r' & ? & ?). exists r'. tauto. }
  destruct (normalize_pending fr loads r) as [p'|] eqn:En.
  - intros [<-|H].
    + exists r. apply String.eqb_eq in Er, Es. auto.
    + destruct (IH H) as (r' & ? & ?). exists r'. tauto.
  - intros H. destruct (IH H) as (r' & ? & ?). exists r'. tauto.
Qed.

Lemma normalize_pending_status (r : Row) (p : PendingOffer) :
  normalize_pending fr loads r = Some p -> p_status p = "pending".
Proof.
  unfold normalize_pending.
  destruct (cell_loads loads _); [|discriminate].
  destruct (cell_truthy (numericise (surprise_bag_data r)));
    [destruct (cell_loads loads (numericise (surprise_bag_data r)))|];
    intros H; try discriminate; injection H as <-; reflexivity.
Qed.

Lemma normalize_pending_json_error (r : Row) :
  let vdw := numericise (valid_days_of_week r) in
  let sb := numericise (surprise_bag_data r) in
  cell_loads loads (if cell_truthy vdw then vdw else CText "[]") = None
  \/ (cell_truthy sb = true /\ cell_loads loads sb = None) ->
  normalize_pending fr loads r = None.
Proof.
  cbv zeta. unfold normalize_pending. intros [H|[Ht H]].
  - rewrite H. reflexivity.
  - destruct (cell_loads loads (if cell_truthy (numericise (valid_days_of_week r))
                                then numericise (valid_days_of_week r) else CText "[]"));
      [|reflexivity].
    rewrite Ht, H. reflexivity.
Qed.

End PendingFacts.

(** ** C10 *)

(** Claim C10: [get_pending_offers_from_sheet] returns a list for every
    worksheet and restaurant id (it raises on no row). Every entry comes
    from a record of the requested restaurant whose status is [pending]
    (case-insensitively) and has [status = pending]. A record whose
    [valid_days_of_week] or [surprise_bag_data] cell [json.loads] rejects
    (text that is not JSON, or a cell gspread read as a number, a
    [TypeError]) is left out, and the records around it are read as if it
    were absent. On a sheet with a broken [valid_days_of_week] between two
    good rows, the two good rows are returned; a days cell [5] is left
    out the same way. *)
Theorem pending_offers_skip_malformed (fr : string -> string) (loads : Loader) (ws_ok : bool)
  (ws : Worksheet) (rid : string) :
  (forall p, In p (get_pending_offers_from_sheet fr loads ws_ok ws rid) ->
     p_status p = "pending"
     /\ exists r, In r (get_all_records ws)
                  /\ cell_str fr (numericise (restaurant_id r)) = rid
                  /\ py_lower (cell_str fr (numericise (status r))) = "pending"
                  /\ normalize_pending fr loads r = Some p) /\
  (forall pre r post,
     get_all_records ws = pre ++ r :: post ->
     let vdw := numericise (valid_days_of_week r) in
     let sb := numericise (surprise_bag_data r) in
     cell_loads loads (if cell_truthy vdw then vdw else CText "[]") = None
     \/ (cell_truthy sb = true /\ cell_loads loads sb = None) ->
     get_pending_offers_from_sheet fr loads ws_ok ws rid
       = if ws_ok then pending_loop fr loads rid pre ++ pending_loop fr loads rid post else []) /\
  List.map p_title
    (get_pending_offers_from_sheet fr json_loads true
       [HEADERS; row_a; row_bad_days; row_empty_times] "7")
    = [CText (title row_a); CText (title row_empty_times)] /\
  List.map p_title
    (get_pending_offers_from_sheet fr json_loads true [HEADERS; row_a; row_days_five] "7")
    = [CText (title row_a)].
Proof.
  split; [|split; [|split]].
  - intros p Hp. unfold get_pending_offers_from_sheet in Hp.
    destruct ws_ok; simpl in Hp; [|destruct Hp].
    rewrite ensure_headers_records in Hp.
    destruct (pending_loop_in fr loads rid _ p Hp) as (r & Hr & Hrid & Hst & Hn).
    split; [eapply normalize_pending_status; exact Hn|].
    exists r. auto.
  - intros pre r post Hrecs vdw sb Hjson.
    unfold get_pending_offers_from_sheet. destruct ws_ok; [|reflexivity]. simpl.
    rewrite ensure_headers_records, Hrecs, pending_loop_app. simpl.
    rewrite (normalize_pending_json_error fr loads r Hjson).
    destruct (negb (String.eqb (cell_str fr (numericise (restaurant_id r))) rid)); [reflexivity|].
    destruct (negb (String.eqb (py_lower (cell_str fr (numericise (status r)))) "pending"));
      reflexivity.
  - vm_compute. reflexivity.
  - vm_compute. reflexivity.
Qed.

(* ------------------------------------------------------------------ *)
(** ** Further properties of the code *)

Lemma strs_eqb_eq (a b : list string) : strs_eqb a b = true <-> a = b.
Proof.
  revert b; induction a as [|x a IH]; intros [|y b]; simpl; split; try congruence.
  - rewrite andb_true_iff, String.eqb_eq, IH. intros [-> ->]; reflexivity.
  - intros [= -> ->]. rewrite String.eqb_refl. simpl. apply IH. reflexivity.
Qed.

Lemma HEADER_CELLS_length : List.length HEADER_CELLS = 15.
Proof. reflexivity. Qed.

(** Extra X1 ([google_sheets._ensure_headers]): line 1 is cleared and
    rewritten exactly when its cells differ from [HEADERS]; the four
    [needs_fix] tests never change the decision. *)
Theorem ensure_header_cells_decision (current : list string) :
  snd (ensure_header_cells current) = negb (strs_eqb current HEADER_CELLS).
Proof.
  unfold ensure_header_cells.
  destruct (strs_eqb current HEADER_CELLS) eqn:E.
  - apply strs_eqb_eq in E. subst current. reflexivity.
  - simpl. rewrite orb_true_r. reflexivity.
Qed.

Lemma ensure_header_cells_fst (current : list string) :
  fst (ensure_header_cells current)
  = if strs_eqb current HEADER_CELLS then current
    else HEADER_CELLS ++ skipn 15 current.
Proof.
  unfold ensure_header_cells.
  destruct (strs_eqb current HEADER_CELLS) eqn:E.
  - apply strs_eqb_eq in E. subst current. reflexivity.
  - simpl. rewrite orb_true_r. reflexivity.
Qed.

(** Extra X2 ([google_sheets._ensure_headers]): after the call, the first
    15 cells of line 1 are [HEADERS] and the cells right of column O are
    kept; a second call rewrites the line again exactly when it had more
    than 15 cells before the first one. *)
Theorem ensure_header_cells_result (current : list string) :
  let line := fst (ensure_header_cells current) in
  firstn 15 line = HEADER_CELLS
  /\ skipn 15 line = skipn 15 current
  /\ snd (ensure_header_cells line) = (15 <? List.length current).
Proof.
  cbv zeta. rewrite ensure_header_cells_decision, ensure_header_cells_fst.
  destruct (strs_eqb current HEADER_CELLS) eqn:E.
  - apply strs_eqb_eq in E. subst current.
    split; [reflexivity|]. split; reflexivity.
  - cbv beta iota. split; [|split].
    + rewrite firstn_app, HEADER_CELLS_length, Nat.sub_diag. reflexivity.
    + rewrite <- HEADER_CELLS_length at 1. rewrite skipn_app, skipn_all, Nat.sub_diag. reflexivity.
    + destruct (Nat.ltb_spec 15 (List.length current)) as [Hl|Hl].
      * destruct (skipn 15 current) as [|x xs] eqn:Es.
        { exfalso. pose proof (length_skipn 15 current) as L. rewrite Es in L. simpl in L. lia. }
        destruct (strs_eqb (HEADER_CELLS ++ x :: xs) HEADER_CELLS) eqn:E2; [|reflexivity].
        apply strs_eqb_eq in E2. apply (f_equal (@List.length string)) in E2.
        rewrite length_app in E2. simpl in E2. lia.
      * rewrite skipn_all2 by exact Hl. rewrite app_nil_r.
        assert (strs_eqb HEADER_CELLS HEADER_CELLS = true) as -> by (apply strs_eqb_eq; reflexivity).
        reflexivity.
Qed.

Lemma replace_backslash_n_head (d : ascii) (r : string) :
  exists h y, replace_backslash_n (String d r) = String h y /\ (h = newline \/ h = d).
Proof.
  destruct r as [|e r]; simpl.
  - eexists _, _. split; [reflexivity|]. right; reflexivity.
  - destruct (Ascii.eqb d backslash && Ascii.eqb e "n"%char).
    + eexists _, _. split; [reflexivity|]. left; reflexivity.
    + eexists _, _. split; [reflexivity|]. right; reflexivity.
Qed.

Lemma string_length_ind (P : string -> Prop) :
  (forall s, (forall s', String.length s' < String.length s -> P s') -> P s) ->
  forall s, P s.
Proof.
  intros H s. remember (String.length s) as n eqn:Hn. revert s Hn.
  induction n as [n IH] using (well_founded_induction Nat.lt_wf_0).
  intros s Hn. apply H. intros s' Hs'. apply (IH (String.length s')); [lia|reflexivity].
Qed.

Lemma has_backslash_n_cons (c : ascii) (s : string) :
  has_backslash_n (String c s)
  = match s with
    | String d _ => (Ascii.eqb c backslash && Ascii.eqb d "n"%char) || has_backslash_n s
    | EmptyString => false
    end.
Proof. destruct s; reflexivity. Qed.

Lemma replace_backslash_n_cons2 (c d : ascii) (r : string) :
  replace_backslash_n (String c (String d r))
  = if Ascii.eqb c backslash && Ascii.eqb d "n"%char
    then String newline (replace_backslash_n r)
    else String c (replace_backslash_n (String d r)).
Proof. reflexivity. Qed.

Lemma replace_backslash_n_clean (s : string) : has_backslash_n (replace_backslash_n s) = false.
Proof.
  induction s as [s IH] using string_length_ind.
  destruct s as [|c [|d r]]; [reflexivity|reflexivity|].
  rewrite replace_backslash_n_cons2.
  destruct (Ascii.eqb c backslash && Ascii.eqb d "n"%char) eqn:E.
  - assert (Hr := IH r ltac:(simpl; lia)).
    rewrite has_backslash_n_cons.
    destruct (replace_backslash_n r) as [|h y]; [reflexivity|].
    rewrite Hr, orb_false_r. reflexivity.
  - assert (Hr := IH (String d r) ltac:(simpl; lia)).
    destruct (replace_backslash_n_head d r) as (h & y & Ey & Hh).
    rewrite Ey in *. rewrite has_backslash_n_cons, Hr, orb_false_r.
    destruct Hh as [->| ->]; [|exact E].
    destruct (Ascii.eqb c backslash); reflexivity.
Qed.

Lemma replace_backslash_n_newline (s : string) :
  has_backslash_n s = true -> has_newline (replace_backslash_n s) = true.
Proof.
  induction s as [s IH] using string_length_ind.
  destruct s as [|c [|d r]]; try discriminate.
  rewrite has_backslash_n_cons, replace_backslash_n_cons2.
  destruct (Ascii.eqb c backslash && Ascii.eqb d "n"%char) eqn:E; intros H.
  - reflexivity.
  - rewrite orb_false_l in H.
    change (Ascii.eqb c newline || has_newline (replace_backslash_n (String d r)) = true).
    rewrite (IH (String d r) ltac:(simpl; lia) H), orb_true_r. reflexivity.
Qed.

Lemma dict_get_set_same (d : list (string * string)) (k v dflt : string) :
  dict_get (dict_set d k v) k dflt = v.
Proof.
  unfold dict_get, dict_set.
  destruct (existsb (fun kv => String.eqb (fst kv) k) d) eqn:E.
  - induction d as [|[k' v'] d IH]; simpl in *; [discriminate|].
    destruct (String.eqb k' k) eqn:Ek; simpl.
    + rewrite String.eqb_refl. reflexivity.
    + rewrite Ek. apply IH, E.
  - induction d as [|[k' v'] d IH]; simpl in *.
    + rewrite String.eqb_refl. reflexivity.
    + apply orb_false_iff in E as [E1 E2]. rewrite E1. apply IH, E2.
Qed.

Lemma dict_get_set_other (d : list (string * string)) (k k' v dflt : string) :
  k' <> k -> dict_get (dict_set d k v) k' dflt = dict_get d k' dflt.
Proof.
  intros Hne. unfold dict_get, dict_set.
  assert (Hk : String.eqb k k' = false) by (apply String.eqb_neq; congruence).
  destruct (existsb (fun kv => String.eqb (fst kv) k) d).
  - induction d as [|[k0 v0] d IH]; simpl; [reflexivity|].
    destruct (String.eqb k0 k) eqn:E0; simpl.
    + apply String.eqb_eq in E0. subst k0. rewrite Hk. exact IH.
    + destruct (String.eqb k0 k'); [reflexivity|exact IH].
  - induction d as [|[k0 v0] d IH]; simpl.
    + rewrite Hk. reflexivity.
    + destruct (String.eqb k0 k'); [reflexivity|exact IH].
Qed.

(** Extra X3 ([google_sheets._normalize_private_key]): afterwards the
    private key holds a real newline or no two-character sequence
    backslash-n, and every other key of the dict keeps its value. *)
Theorem normalize_private_key_result (info : list (string * string)) :
  let pk := dict_get (_normalize_private_key info) "private_key" "" in
  (has_newline pk = true \/ has_backslash_n pk = false)
  /\ (forall k dflt, k <> "private_key" ->
        dict_get (_normalize_private_key info) k dflt = dict_get info k dflt).
Proof.
  cbv zeta. unfold _normalize_private_key.
  destruct (has_backslash_n (dict_get info "private_key" "")) eqn:Eb;
  destruct (has_newline (dict_get info "private_key" "")) eqn:En; simpl.
  - split; [left; exact En|reflexivity].
  - split.
    + rewrite dict_get_set_same. right. apply replace_backslash_n_clean.
    + intros k dflt Hk. apply dict_get_set_other, Hk.
  - split; [left; exact En|reflexivity].
  - split; [right; exact Eb|reflexivity].
Qed.

Lemma remove_find_app (fr : string -> string) (rid t ty : string) (i : nat)
  (pre post : list Row) (r : Row) :
  forallb (fun x => negb (offer_matches fr rid t ty x)) pre = true ->
  offer_matches fr rid t ty r = true ->
  remove_find fr rid t ty i (pre ++ r :: post) = Some (i + List.length pre).
Proof.
  revert i; induction pre as [|x pre IH]; intros i Hpre Hr; simpl.
  - rewrite Hr, Nat.add_0_r. reflexivity.
  - simpl in Hpre. apply andb_true_iff in Hpre as [Hx Hpre].
    apply negb_true_iff in Hx. rewrite Hx, (IH (S i) Hpre Hr). f_equal; lia.
Qed.

Lemma remove_find_none (fr : string -> string) (rid t ty : string) (i : nat) (recs : list Row) :
  forallb (fun x => negb (offer_matches fr rid t ty x)) recs = true ->
  remove_find fr rid t ty i recs = None.
Proof.
  revert i; induction recs as [|x recs IH]; intros i H; simpl; [reflexivity|].
  simpl in H. apply andb_true_iff in H as [Hx H].
  apply negb_true_iff in Hx. rewrite Hx. apply IH, H.
Qed.

(** Extra X4 ([google_sheets.remove_offer_from_sheet]): when some record
    matches the restaurant, title and type, as gspread reads the cells
    (a title or type cell read as a number equals no text), the first
    matching record is deleted, the others stay in order, and [True] is
    returned. *)
Theorem remove_offer_first_match (fr : string -> string) (rid t ty : string) (ws : Worksheet)
  (pre : list Row) (r : Row) (post : list Row) :
  get_all_records ws = pre ++ r :: post ->
  forallb (fun x => negb (offer_matches fr rid t ty x)) pre = true ->
  offer_matches fr rid t ty r = true ->
  remove_offer_from_sheet fr true rid t ty ws = Some (HEADERS :: pre ++ post, true).
Proof.
  intros Hrecs Hpre Hr. unfold remove_offer_from_sheet. simpl.
  rewrite ensure_headers_shape, Hrecs. simpl.
  rewrite (remove_find_app fr rid t ty 2 pre post r Hpre Hr). simpl.
  rewrite (delete_at_middle pre post r). reflexivity.
Qed.

(** Extra X5 ([google_sheets.remove_offer_from_sheet]): when no record
    matches, nothing is deleted and [False] is returned (line 1 is still
    fixed by [_get_ws]). *)
Theorem remove_offer_no_match (fr : string -> string) (rid t ty : string) (ws : Worksheet) :
  forallb (fun x => negb (offer_matches fr rid t ty x)) (get_all_records ws) = true ->
  remove_offer_from_sheet fr true rid t ty ws = Some (_ensure_headers ws, false).
Proof.
  intros H. unfold remove_offer_from_sheet. simpl.
  rewrite ensure_headers_records, (remove_find_none fr rid t ty 2 _ H). reflexivity.
Qed.

Lemma list_ascii_of_string_append (s t : string) :
  list_ascii_of_string (String.append s t) = list_ascii_of_string s ++ list_ascii_of_string t.
Proof. induction s as [|c s IH]; simpl; [reflexivity|]. rewrite IH. reflexivity. Qed.

Lemma digit_char (z : Z) :
  (0 <= z < 10)%Z -> digit_of (ascii_of_nat (48 + Z.to_nat z)) = Some z.
Proof.
  intros Hz.
  assert (z = 0 \/ z = 1 \/ z = 2 \/ z = 3 \/ z = 4 \/ z = 5 \/ z = 6 \/ z = 7 \/ z = 8 \/ z = 9)%Z
    as H by lia.
  repeat destruct H as [->|H]; try reflexivity. subst z. reflexivity.
Qed.

Lemma lex_digits_cons (a : Z) (c : ascii) (r : list ascii) :
  lex_digits a (c :: r) = match digit_of c with
                          | Some d => lex_digits (a * 10 + d) r
                          | None => (a, c :: r)
                          end.
Proof. reflexivity. Qed.

Lemma digits_of_succ (f : nat) (n : Z) (acc : string) :
  digits_of (S f) n acc
  = if Z.eqb (n / 10) 0 then String (ascii_of_nat (48 + Z.to_nat (n mod 10))) acc
    else digits_of f (n / 10) (String (ascii_of_nat (48 + Z.to_nat (n mod 10))) acc).
Proof. reflexivity. Qed.

Definition num_start (c : ascii) : Prop :=
  In c ["-"; "0"; "1"; "2"; "3"; "4"; "5"; "6"; "7"; "8"; "9"]%char.

Lemma digit_char_start (z : Z) :
  (0 <= z < 10)%Z -> num_start (ascii_of_nat (48 + Z.to_nat z)).
Proof.
  intros Hz.
  assert (z = 0 \/ z = 1 \/ z = 2 \/ z = 3 \/ z = 4 \/ z = 5 \/ z = 6 \/ z = 7 \/ z = 8 \/ z = 9)%Z
    as H by lia.
  unfold num_start.
  repeat destruct H as [->|H]; try (simpl; tauto). subst z. simpl; tauto.
Qed.

Lemma digits_of_lex (fuel : nat) (n : Z) (acc : string) (a : Z) (rest : list ascii) :
  (0 <= n < 10 ^ Z.of_nat fuel)%Z ->
  exists k, (0 <= k)%Z /\
    lex_digits a (list_ascii_of_string (digits_of fuel n acc) ++ rest)
    = lex_digits (a * 10 ^ k + n) (list_ascii_of_string acc ++ rest).
Proof.
  revert n acc a; induction fuel as [|f IH]; intros n acc a Hn.
  - simpl in Hn. exists (0%Z). split; [lia|]. assert (n = 0%Z) as -> by lia.
    cbn [digits_of]. f_equal. lia.
  - rewrite Nat2Z.inj_succ, Z.pow_succ_r in Hn by lia.
    assert (Hm : (0 <= n mod 10 < 10)%Z) by (apply Z.mod_pos_bound; lia).
    assert (Hd : (n = 10 * (n / 10) + n mod 10)%Z) by (apply Z.div_mod; lia).
    rewrite digits_of_succ.
    destruct (Z.eqb_spec (n / 10) 0) as [Hq|Hq].
    + exists (1%Z). split; [lia|]. cbn [list_ascii_of_string app].
      rewrite lex_digits_cons, digit_char by exact Hm.
      f_equal. lia.
    + assert (Hq' : (0 <= n / 10 < 10 ^ Z.of_nat f)%Z).
      { split; [apply Z.div_pos; lia|]. apply Z.div_lt_upper_bound; lia. }
      destruct (IH (n / 10)%Z (String (ascii_of_nat (48 + Z.to_nat (n mod 10))) acc) a Hq')
        as (k & Hk & E).
      exists (Z.succ k). split; [lia|]. rewrite E. cbn [list_ascii_of_string app].
      rewrite lex_digits_cons, digit_char by exact Hm. f_equal.
      rewrite Z.pow_succ_r by exact Hk. lia.
Qed.

Lemma digits_of_head (fuel : nat) (n : Z) (acc : string) :
  (0 < n < 10 ^ Z.of_nat fuel)%Z ->
  exists c r d, list_ascii_of_string (digits_of fuel n acc) = c :: r
    /\ digit_of c = Some d /\ d <> 0%Z /\ num_start c.
Proof.
  revert n acc; induction fuel as [|f IH]; intros n acc Hn.
  - simpl in Hn. lia.
  - rewrite Nat2Z.inj_succ, Z.pow_succ_r in Hn by lia.
    assert (Hm : (0 <= n mod 10 < 10)%Z) by (apply Z.mod_pos_bound; lia).
    assert (Hd : (n = 10 * (n / 10) + n mod 10)%Z) by (apply Z.div_mod; lia).
    rewrite digits_of_succ.
    destruct (Z.eqb_spec (n / 10) 0) as [Hq|Hq].
    + do 3 eexists. split; [reflexivity|].
      split; [apply digit_char, Hm|]. split; [lia|]. apply digit_char_start, Hm.
    + apply IH. split; [|apply Z.div_lt_upper_bound; lia].
      assert (0 <= n / 10)%Z by (apply Z.div_pos; lia). lia.
Qed.

Lemma repr_fuel (z : Z) : (0 < z)%Z -> (z < 10 ^ Z.of_nat (S (Z.to_nat (Z.log2 z))))%Z.
Proof.
  intros Hz. destruct (Z.log2_spec z Hz) as [_ H2].
  rewrite Nat2Z.inj_succ, Z2Nat.id by (apply Z.log2_nonneg).
  rewrite <- Z.add_1_r. eapply Z.lt_le_trans; [exact H2|].
  apply Z.pow_le_mono_l. split; [lia|lia].
Qed.

(** A character that ends a number. *)
Definition num_stop (rest : list ascii) : Prop :=
  match rest with
  | [] => True
  | c :: _ => c = ","%char \/ c = "]"%char
  end.

Lemma lex_digits_stop (a : Z) (rest : list ascii) :
  num_stop rest -> lex_digits a rest = (a, rest).
Proof. destruct rest as [|c r]; simpl; [reflexivity|]. intros [->| ->]; reflexivity. Qed.

Lemma lex_number_tail (neg : bool) (z : Z) (rest : list ascii) :
  num_stop rest ->
  match rest with
  | c' :: _ => if Ascii.eqb c' "." || Ascii.eqb c' "e" || Ascii.eqb c' "E"
                 || negb (match digit_of c' with None => true | _ => false end)
               then None else Some (if neg then Z.opp z else z, rest)
  | [] => Some (if neg then Z.opp z else z, rest)
  end = Some (if neg then Z.opp z else z, rest).
Proof. destruct rest as [|c r]; simpl; [reflexivity|]. intros [->| ->]; reflexivity. Qed.

Lemma lex_number_pos (neg : bool) (n : Z) (fuel : nat) (rest : list ascii) :
  (0 < n < 10 ^ Z.of_nat fuel)%Z -> num_stop rest ->
  lex_number ((if neg then ["-"%char] else []) ++ list_ascii_of_string (digits_of fuel n "") ++ rest)
  = Some (if neg then Z.opp n else n, rest).
Proof.
  intros Hn Hs.
  destruct (digits_of_head fuel n "" Hn) as (c & r & d & Ec & Hc & Hd & Hst).
  destruct (digits_of_lex fuel n "" 0 rest ltac:(lia)) as (k & Hk & El).
  rewrite Ec in El. cbn [app] in El. rewrite lex_digits_cons, Hc in El.
  assert (E0 : (0 * 10 ^ k + n = n)%Z) by lia. rewrite E0 in El.
  cbn [list_ascii_of_string app] in El. rewrite (lex_digits_stop n rest Hs) in El.
  replace (0 * 10 + d)%Z with d in El by lia.
  unfold lex_number. rewrite Ec.
  assert (Hm : match (if neg then ["-"%char] else []) ++ c :: r ++ rest with
               | c0 :: r0 => if Ascii.eqb c0 "-" then (true, r0) else (false, (if neg then ["-"%char] else []) ++ c :: r ++ rest)
               | [] => (false, (if neg then ["-"%char] else []) ++ c :: r ++ rest)
               end = (neg, c :: r ++ rest)).
  { destruct neg; [reflexivity|]. simpl.
    destruct (Ascii.eqb c "-") eqn:Em; [|reflexivity].
    apply Ascii.eqb_eq in Em. subst c. discriminate. }
  simpl app in Hm |- *. rewrite Hm, Hc.
  destruct (Z.eqb_spec d 0) as [|_]; [contradiction|].
  rewrite El.
  apply lex_number_tail, Hs.
Qed.

Lemma py_int_repr_lex (z : Z) (rest : list ascii) :
  num_stop rest -> lex_number (list_ascii_of_string (py_int_repr z) ++ rest) = Some (z, rest).
Proof.
  intros Hs. unfold py_int_repr.
  destruct (Z.ltb_spec z 0) as [Hz|Hz].
  - assert (Hb : (0 < - z < 10 ^ Z.of_nat (S (Z.to_nat (Z.log2 (- z)))))%Z)
      by (split; [lia|apply repr_fuel; lia]).
    pose proof (lex_number_pos true (- z) _ rest Hb Hs) as H.
    rewrite Z.opp_involutive in H. exact H.
  - destruct (Z.eq_dec z 0) as [->|Hz0].
    + cbn. destruct rest as [|c r]; [reflexivity|]. destruct Hs as [->| ->]; reflexivity.
    + assert (Hb : (0 < z < 10 ^ Z.of_nat (S (Z.to_nat (Z.log2 z))))%Z)
        by (split; [lia|apply repr_fuel; lia]).
      exact (lex_number_pos false z _ rest Hb Hs).
Qed.

Lemma py_int_repr_head (z : Z) :
  exists c r, list_ascii_of_string (py_int_repr z) = c :: r /\ num_start c.
Proof.
  unfold py_int_repr.
  destruct (Z.ltb_spec z 0) as [Hz|Hz].
  - eexists _, _. split; [reflexivity|]. left; reflexivity.
  - destruct (Z.eq_dec z 0) as [->|Hz0].
    + eexists _, _. split; [reflexivity|]. right; left; reflexivity.
    + assert (Hb : (0 < z < 10 ^ Z.of_nat (S (Z.to_nat (Z.log2 z))))%Z)
        by (split; [lia|apply repr_fuel; lia]).
      destruct (digits_of_head _ z "" Hb) as (c & r & d & E & _ & _ & Hst).
      exists c, r. split; assumption.
Qed.

Lemma parse_value_num (f : nat) (c : ascii) (r : list ascii) :
  num_start c ->
  parse_value (S f) (c :: r) = option_map (fun '(z, r') => (JNum z, r')) (lex_number (c :: r)).
Proof. intros H. repeat (destruct H as [<-|H]; [reflexivity|]). destruct H. Qed.

Lemma parse_value_space (f : nat) (s : list ascii) :
  parse_value (S f) (" "%char :: s) = parse_value (S f) s.
Proof. reflexivity. Qed.

Lemma parse_value_py_int (f : nat) (z : Z) (rest : list ascii) :
  num_stop rest ->
  parse_value (S f) (list_ascii_of_string (py_int_repr z) ++ rest) = Some (JNum z, rest).
Proof.
  intros Hs. destruct (py_int_repr_head z) as (c & r & E & Hc).
  pose proof (py_int_repr_lex z rest Hs) as L. rewrite E in L. simpl app in L.
  rewrite E. simpl app. rewrite parse_value_num by exact Hc. rewrite L. reflexivity.
Qed.

Lemma parse_elems_comma (g : nat) (s : list ascii) (acc : list Json) (v : Json) (r : list ascii) :
  parse_value g s = Some (v, ","%char :: r) -> parse_elems (S g) s acc = parse_elems g r (v :: acc).
Proof. intros H. simpl. rewrite H. reflexivity. Qed.

Lemma parse_elems_close (g : nat) (s : list ascii) (acc : list Json) (v : Json) (r : list ascii) :
  parse_value g s = Some (v, "]"%char :: r) -> parse_elems (S g) s acc = Some (JArr (rev (v :: acc)), r).
Proof. intros H. simpl. rewrite H. reflexivity. Qed.

Lemma parse_value_pre_int (f : nat) (pre : list ascii) (z : Z) (rest : list ascii) :
  pre = [] \/ pre = [" "%char] -> num_stop rest ->
  parse_value (S f) (pre ++ list_ascii_of_string (py_int_repr z) ++ rest) = Some (JNum z, rest).
Proof.
  intros [->| ->] Hs; [|simpl app; rewrite parse_value_space]; apply parse_value_py_int, Hs.
Qed.

Lemma parse_elems_ints (zs : list Z) (z : Z) (f : nat) (pre : list ascii) (acc : list Json)
  (rest : list ascii) :
  List.length zs < f -> pre = [] \/ pre = [" "%char] ->
  parse_elems (S f)
    (pre ++ list_ascii_of_string (String.concat ", " (map py_int_repr (z :: zs))) ++ "]"%char :: rest)
    acc
  = Some (JArr (rev acc ++ map JNum (z :: zs)), rest).
Proof.
  revert z f pre acc; induction zs as [|z2 zs IH]; intros z f pre acc Hf Hpre.
  - destruct f as [|f]; [simpl in Hf; lia|].
    change (String.concat ", " (map py_int_repr [z])) with (py_int_repr z).
    rewrite (parse_elems_close _ _ acc (JNum z) rest);
      [reflexivity|apply parse_value_pre_int; [exact Hpre|right; reflexivity]].
  - destruct f as [|f]; [simpl in Hf; lia|].
    assert (Es : list_ascii_of_string (String.concat ", " (map py_int_repr (z :: z2 :: zs)))
                 = list_ascii_of_string (py_int_repr z) ++ ","%char :: [" "%char]
                   ++ list_ascii_of_string (String.concat ", " (map py_int_repr (z2 :: zs)))).
    { change (String.concat ", " (map py_int_repr (z :: z2 :: zs)))
        with (String.append (py_int_repr z)
                (String.append ", " (String.concat ", " (map py_int_repr (z2 :: zs))))).
      rewrite !list_ascii_of_string_append. reflexivity. }
    rewrite Es, <- !app_assoc.
    rewrite (parse_elems_comma _ _ acc (JNum z)
               ([" "%char] ++ list_ascii_of_string (String.concat ", " (map py_int_repr (z2 :: zs)))
                ++ "]"%char :: rest)).
    2:{ apply parse_value_pre_int; [exact Hpre|left; reflexivity]. }
    rewrite (IH z2 f [" "%char] (JNum z :: acc) ltac:(simpl in Hf; lia) (or_intror eq_refl)).
    simpl. rewrite <- app_assoc. reflexivity.
Qed.

Lemma concat_ints_length (z : Z) (zs : list Z) :
  S (List.length zs) <= List.length (list_ascii_of_string (String.concat ", " (map py_int_repr (z :: zs)))).
Proof.
  revert z; induction zs as [|z2 zs IH]; intros z.
  - destruct (py_int_repr_head z) as (c & r & E & _). simpl. rewrite E. simpl. lia.
  - change (String.concat ", " (map py_int_repr (z :: z2 :: zs)))
      with (String.append (py_int_repr z)
              (String.append ", " (String.concat ", " (map py_int_repr (z2 :: zs))))).
    rewrite !list_ascii_of_string_append, !length_app. specialize (IH z2). simpl in *. lia.
Qed.

Lemma parse_value_open (f : nat) (r : list ascii) :
  parse_value (S f) ("["%char :: r)
  = match skip_ws r with
    | c' :: r' => if Ascii.eqb c' "]" then Some (JArr [], r') else parse_elems f r []
    | [] => None
    end.
Proof. reflexivity. Qed.

(** Extra X6 ([google_sheets.add_offer_to_sheet], [json.dumps] of the
    days): the [valid_days_of_week] text written for a list of integers
    is decoded back to the same list. *)
Theorem json_dumps_ints_roundtrip (l : list Z) :
  json_loads (json_dumps_ints l) = Some (JArr (map JNum l)).
Proof.
  destruct l as [|z zs]; [reflexivity|].
  unfold json_loads, json_dumps_ints.
  rewrite !list_ascii_of_string_append.
  pose proof (concat_ints_length z zs) as Hlen.
  destruct (py_int_repr_head z) as (c & r & Ec & Hc).
  set (L := list_ascii_of_string (String.concat ", " (map py_int_repr (z :: zs)))) in *.
  change (list_ascii_of_string "[") with ["["%char].
  change (list_ascii_of_string "]") with ["]"%char].
  change (["["%char] ++ L ++ ["]"%char]) with ("["%char :: L ++ ["]"%char]).
  cbn [List.length]. rewrite length_app. cbn [List.length].
  rewrite parse_value_open.
  assert (Hhead : exists r', L = c :: r').
  { unfold L. destruct zs as [|z2 zs].
    - simpl. rewrite Ec. eexists; reflexivity.
    - change (String.concat ", " (map py_int_repr (z :: z2 :: zs)))
        with (String.append (py_int_repr z)
                (String.append ", " (String.concat ", " (map py_int_repr (z2 :: zs))))).
      rewrite list_ascii_of_string_append, Ec. eexists; reflexivity. }
  destruct Hhead as [r' Er'].
  assert (Hws : skip_ws (L ++ ["]"%char]) = L ++ ["]"%char]).
  { rewrite Er'. repeat (destruct Hc as [<-|Hc]; [reflexivity|]). destruct Hc. }
  rewrite Hws.
  assert (Hnb : Ascii.eqb c "]" = false).
  { repeat (destruct Hc as [<-|Hc]; [reflexivity|]). destruct Hc. }
  assert (Hm : forall X : option (Json * list ascii),
             match L ++ ["]"%char] with
             | [] => None
             | c' :: r'' => if Ascii.eqb c' "]" then Some (JArr [], r'') else X
             end = X).
  { intros X. rewrite Er'. cbn [app]. rewrite Hnb. reflexivity. }
  rewrite Hm.
  replace (List.length L + 1) with (S (List.length L)) by lia.
  pose proof (parse_elems_ints zs z (S (List.length L)) [] [] [] ltac:(lia) (or_introl eq_refl)) as P.
  rewrite app_nil_l in P. fold L in P. rewrite P. reflexivity.
Qed.

Lemma day_names_mapping (d : Day) : day_names (DAYS_MAPPING d) = Some (day_label d).
Proof. destruct d; reflexivity. Qed.

Lemma day_names_all_mapping (ds : list Day) :
  day_names_all (map DAYS_MAPPING ds) = Some (map day_label ds).
Proof. induction ds as [|d ds IH]; simpl; [reflexivity|]. rewrite day_names_mapping, IH. reflexivity. Qed.

Lemma day_names_none (z : Z) : day_names z = None <-> (z < 0 \/ 6 < z)%Z.
Proof.
  split.
  - intros H. destruct (Z_lt_le_dec z 0) as [|H0]; [left; assumption|right].
    destruct (Z_lt_le_dec 6 z) as [|H6]; [assumption|].
    assert (z = 0 \/ z = 1 \/ z = 2 \/ z = 3 \/ z = 4 \/ z = 5 \/ z = 6)%Z as E by lia.
    repeat destruct E as [->|E]; try discriminate. subst z. discriminate.
  - intros H. destruct z as [|p|p]; [lia| |reflexivity].
    destruct p as [[[p|p|]|[p|p|]|]|[[p|p|]|[p|p|]|]|]; try reflexivity; lia.
Qed.

Lemma day_names_all_none (days : list Z) :
  day_names_all days = None <-> exists d, In d days /\ day_names d = None.
Proof.
  induction days as [|d ds IH]; simpl.
  - split; [discriminate|]. intros (x & [] & _).
  - destruct (day_names d) as [n|] eqn:Ed.
    + destruct (day_names_all ds) as [ns|] eqn:Eds.
      * split; [discriminate|]. intros (x & [<-|Hx] & Hn); [congruence|].
        assert (Hc : Some ns = None) by (apply IH; exists x; auto). discriminate.
      * split; [|reflexivity]. intros _. destruct (proj1 IH eq_refl) as (x & Hx & Hn).
        exists x; auto.
    + split; [|reflexivity]. intros _. exists d; auto.
Qed.

(** Extra X7 ([utils/offers.format_days], [DAYS_MAPPING]): the numbers
    [DAYS_MAPPING] assigns to chosen days are formatted back to their
    names ([All days] for none), and [format_days] fails with a
    [KeyError] exactly when some number lies outside 0..6. *)
Theorem format_days_days_mapping :
  (forall days : list Day,
     format_days (map DAYS_MAPPING days)
     = Some (match days with [] => "All days" | _ => String.concat ", " (map day_label days) end))
  /\ (forall days : list Z,
        format_days days = None <-> exists d, In d days /\ (d < 0 \/ 6 < d)%Z).
Proof.
  split.
  - intros [|d ds]; [reflexivity|].
    unfold format_days. cbv beta iota. rewrite day_names_all_mapping. reflexivity.
  - intros [|d ds].
    + simpl. split; [discriminate|]. intros (x & [] & _).
    + unfold format_days. cbv beta iota.
      destruct (day_names_all (d :: ds)) as [ns|] eqn:E; simpl.
      * split; [discriminate|]. intros (x & Hx & Hr).
        apply day_names_none in Hr.
        assert (Hc : day_names_all (d :: ds) = None) by (apply day_names_all_none; exists x; auto).
        congruence.
      * split; [|reflexivity]. intros _.
        destruct (proj1 (day_names_all_none _) E) as (x & Hx & Hn).
        exists x. split; [exact Hx|]. apply day_names_none, Hn.
Qed.

Ltac solve_cases_leaf :=
  solve [ reflexivity | assumption | discriminate | intros; discriminate
        | intros; assumption | unfold offer_from_row; simpl; repeat split; reflexivity ].

Ltac solve_cases :=
  lazymatch goal with
  | |- _ \/ _ => first [ solve [left; solve_cases] | solve [right; solve_cases] ]
  | |- exists _, _ => eexists; solve_cases
  | |- _ /\ _ => split; [solve_cases | solve_cases]
  | |- _ => solve_cases_leaf
  end.

Lemma insert_empty_bag (st : Store) (r : Row) (w : World) :
  surprise_bag_data r = "{}" ->
  let '(w', res) := insert_offer_to_db st json_loads r w in
  (conn w' = conn w /\
   (res = Raise ExnInFailedTx \/ res = Ok None
    \/ (res = Raise ExnJson /\ numericise (valid_days_of_week r) = CText (valid_days_of_week r)
        /\ json_loads (valid_days_of_week r) = None)
    \/ (res = Raise ExnType /\ numericise (valid_days_of_week r) <> CText (valid_days_of_week r)))) \/
  (conn w' = mark_aborted (conn w) /\ res = Raise ExnSql) \/
  (exists o, conn w' = add_offer (conn w) o /\ res = Raise (ExnKey "price")
     /\ offer_from_row r o /\ o_title o = numericise (title r)
     /\ (cell_truthy (numericise (valid_days_of_week r)) = true ->
         json_loads (valid_days_of_week r) = Some (o_valid_days_of_week o))).
Proof.
  intros Hs.
  assert (Hsb : numericise (surprise_bag_data r) = CText "{}") by (rewrite Hs; reflexivity).
  unfold insert_offer_to_db, get_offer_type_id, insert_offer, insert_bag, loads_cell, execute,
    bind, get_conn, set_conn, ret, raise, print, lift_opt, as_dict.
  rewrite Hsb.
  destruct w as [[cm cw ca cs] out0]. simpl.
  destruct ca; destruct (numericise (offer_type r)) as [ty| |] eqn:Ety; simpl.
  all: repeat match goal with
              | |- context [match ?x with _ => _ end] =>
                  lazymatch type of x with
                  | prod _ _ => fail
                  | _ => destruct x eqn:?; simpl
                  end
              end.
  all: cell_texts.
  all: solve_cases.
Qed.


Lemma json_dumps_ints_numericise (l : list Z) :
  numericise (json_dumps_ints l) = CText (json_dumps_ints l).
Proof. unfold json_dumps_ints. apply numericise_lead. reflexivity. Qed.

Lemma sheet_row_days_cell (now rid rname : string) (od : OfferData) :
  valid_days_of_week (sheet_row now rid rname od) = json_dumps_ints (od_valid_days_of_week od).
Proof. reflexivity. Qed.


Lemma empty_bag_no_offer_id (st : Store) (r : Row) (w w' : World) (id : Z) :
  surprise_bag_data r = "{}" ->
  insert_offer_to_db st json_loads r w <> (w', Ok (Some id)).
Proof.
  intros Hs E. pose proof (insert_empty_bag st r w Hs) as H. rewrite E in H.
  destruct H as [(_ & [H|[H|[(H & _)|(H & _)]]])|[(_ & H)|(o & _ & H & _)]]; discriminate.
Qed.

Lemma approve_loop_collected (st : Store) (loads : Loader) (i : nat) (recs : list Row)
  (acc : list nat) (cnt : nat) (w : World) :
  exists w' new,
    approve_loop st loads i recs acc cnt w = (w', Ok (acc ++ new, cnt + List.length new))
    /\ (forall n, In n new ->
          i <= n /\ exists r w0 w1 id, nth_error recs (n - i) = Some r
                                      /\ status r = "pending"
                                      /\ insert_offer_to_db st loads r w0 = (w1, Ok (Some id))).
Proof.
  revert i acc cnt w; induction recs as [|r rs IH]; intros i acc cnt w; simpl.
  - exists w, []. rewrite app_nil_r, Nat.add_0_r. split; [reflexivity|]. intros n [].
  - destruct (String.eqb (status r) "pending") eqn:Es.
    2:{ destruct (IH (S i) acc cnt w) as (w' & new & Hrun & Hn).
        exists w', new. split; [exact Hrun|]. intros n Hin.
        destruct (Hn n Hin) as (Hle & r' & w0 & w1 & id & Hr' & Hi).
        split; [lia|]. exists r', w0, w1, id. split; [|exact Hi].
        replace (n - i) with (S (n - S i)) by lia. exact Hr'. }
    unfold bind at 1. rewrite process_record_run.
    destruct (insert_offer_to_db st loads r _) as [w1 res] eqn:Ei.
    destruct res as [[oid|]|e]; [destruct (Z.eqb oid 0)| |]; unfold bind, print; simpl.
    2:{ destruct (IH (S i) (acc ++ [i]) (S cnt) (mkWorld (conn w1) (out w1 ++ [MsgCreated oid])))
          as (w' & new & Hrun & Hn).
        exists w', (i :: new). rewrite Hrun, <- app_assoc. simpl.
        split; [do 3 f_equal; lia|].
        intros n [<-|Hin].
        - split; [lia|]. rewrite Nat.sub_diag. do 4 eexists.
          split; [reflexivity|]. split; [apply String.eqb_eq; exact Es|exact Ei].
        - destruct (Hn n Hin) as (Hle & r' & w0 & w2 & id & Hr' & Hi).
          split; [lia|]. exists r', w0, w2, id. split; [|exact Hi].
          replace (n - i) with (S (n - S i)) by lia. exact Hr'. }
    all: match goal with
         | |- exists _ _, approve_loop _ _ _ _ _ _ ?w0 = _ /\ _ =>
             destruct (IH (S i) acc cnt w0) as (w' & new & Hrun & Hn);
             exists w', new; split; [exact Hrun|];
             intros n Hin; destruct (Hn n Hin) as (Hle & r' & w0' & w2 & id & Hr' & Hi);
             split; [lia|]; exists r', w0', w2, id; split; [|exact Hi];
             replace (n - i) with (S (n - S i)) by lia; exact Hr'
         end.
Qed.

Lemma keep_from_In {A} (drop : nat -> bool) (i : nat) (xs : list A) (p : nat) (x : A) :
  nth_error xs p = Some x -> drop (i + p) = false -> In x (keep_from drop i xs).
Proof.
  revert i p; induction xs as [|y xs IH]; intros i p Hn Hd; [destruct p; discriminate|].
  destruct p as [|p]; simpl in Hn.
  - injection Hn as ->. simpl. rewrite Nat.add_0_r in Hd. rewrite Hd. left; reflexivity.
  - simpl. assert (Hd' : drop (S i + p) = false) by (rewrite <- Hd; f_equal; lia).
    destruct (drop i); [|right]; exact (IH (S i) p Hn Hd').
Qed.

Lemma approve_keeps_line (st : Store) (loads : Loader) (ws : Worksheet) (response : string)
  (connect_ok : bool) (c0 : Conn) (r : Row) :
  In r ws ->
  (forall w0 w1 id, status r = "pending" -> insert_offer_to_db st loads r w0 = (w1, Ok (Some id)) -> False) ->
  In r (fst (approve_offers st loads ws response connect_ok c0)).
Proof.
  intros Hin Hnever.
  destruct (approve_proceeds ws response connect_ok) eqn:Ep.
  2:{ rewrite (proj1 (approve_offers_skip st loads ws response connect_ok c0 Ep)). exact Hin. }
  destruct (approve_offers_run st loads ws response connect_ok c0 Ep)
    as (w3 & rows & n & Hrun & _ & _ & _ & Hres).
  rewrite Hres. simpl fst.
  destruct (approve_loop_collected st loads 2 (get_all_records ws) [] 0 (approve_start_world c0 ws))
    as (w' & new & Hrun' & Hnew).
  rewrite Hrun in Hrun'. injection Hrun' as _ Hrows _. simpl in Hrows. subst rows.
  apply In_nth_error in Hin as [p Hp].
  apply (keep_from_In _ 1 ws p r Hp).
  destruct (mem_nat (1 + p) new) eqn:Em; [|reflexivity].
  exfalso. unfold mem_nat in Em. apply existsb_exists in Em as (m & Hm & Heq).
  apply Nat.eqb_eq in Heq. subst m.
  destruct (Hnew (1 + p) Hm) as (Hle & r' & w0 & w1 & id & Hr' & Hst & Hi).
  destruct ws as [|h t]; [destruct p; discriminate|].
  destruct p as [|p]; [lia|]. simpl in Hp, Hr'.
  replace (p - 0) with p in Hr' by lia. rewrite Hp in Hr'. injection Hr' as <-.
  exact (Hnever w0 w1 id Hst Hi).
Qed.

(** Extra X9 ([admin_offer_approval.approve_offers]): a line whose
    [surprise_bag_data] is ["{}"] is never deleted from the worksheet. *)
Theorem approve_keeps_empty_bag_lines (st : Store) (ws : Worksheet) (response : string)
  (connect_ok : bool) (c0 : Conn) (r : Row) :
  In r ws -> surprise_bag_data r = "{}" ->
  In r (fst (approve_offers st json_loads ws response connect_ok c0)).
Proof.
  intros Hin Hs. apply approve_keeps_line; [exact Hin|].
  intros w0 w1 id _ Hi. exact (empty_bag_no_offer_id st r w0 w1 id Hs Hi).
Qed.

Lemma pending_loop_In (fr : string -> string) (loads : Loader) (rid : string) (rs : list Row)
  (r : Row) (p : PendingOffer) :
  In r rs -> cell_str fr (numericise (restaurant_id r)) = rid ->
  py_lower (cell_str fr (numericise (status r))) = "pending" ->
  normalize_pending fr loads r = Some p -> In p (pending_loop fr loads rid rs).
Proof.
  intros Hin Hrid Hst Hn. induction rs as [|x xs IH]; [destruct Hin|].
  simpl. destruct Hin as [<-|Hin].
  - rewrite Hrid, String.eqb_refl, Hst. simpl. rewrite Hn. left; reflexivity.
  - destruct (String.eqb (cell_str fr (numericise (restaurant_id x))) rid); simpl; [|auto].
    destruct (String.eqb (py_lower (cell_str fr (numericise (status x)))) "pending"); simpl;
      [|auto].
    destruct (normalize_pending fr loads x); [right|]; auto.
Qed.

Lemma lower_p_lead (c : ascii) : ascii_lower c = "p"%char -> num_lead c = false.
Proof.
  intros H. destruct c as [[] [] [] [] [] [] [] []]; cbv in H; first [discriminate H | reflexivity].
Qed.

(** A status cell whose lower case is [pending] starts with [p] or [P]:
    gspread keeps it as text. *)
Lemma status_pending_text (s : string) : py_lower s = "pending" -> numericise s = CText s.
Proof.
  destruct s as [|c t]; [discriminate|]. simpl. intros H. injection H as Hc _.
  apply numericise_lead, lower_p_lead, Hc.
Qed.

(** Extra X10 ([google_sheets.get_pending_offers_from_sheet],
    [admin_offer_approval.approve_offers]): a record whose status is a
    case variant of [pending] other than [pending] is listed to its
    restaurant as pending, but [approve_offers] never deletes it. *)
Theorem mixed_case_pending_shown_never_approved (fr : string -> string) (st : Store)
  (loads : Loader) (ws : Worksheet) (response : string) (connect_ok : bool) (c0 : Conn)
  (r : Row) (p : PendingOffer) :
  In r (get_all_records ws) -> py_lower (status r) = "pending" -> status r <> "pending" ->
  normalize_pending fr loads r = Some p ->
  In p (get_pending_offers_from_sheet fr loads true ws (cell_str fr (numericise (restaurant_id r))))
  /\ p_status p = "pending"
  /\ In r (fst (approve_offers st loads ws response connect_ok c0)).
Proof.
  intros Hin Hl Hne Hn. split; [|split].
  - unfold get_pending_offers_from_sheet. simpl. rewrite ensure_headers_records.
    apply (pending_loop_In fr loads _ _ r p Hin eq_refl); [|exact Hn].
    rewrite (status_pending_text _ Hl). exact Hl.
  - exact (normalize_pending_status fr loads r p Hn).
  - apply approve_keeps_line.
    + destruct ws as [|h t]; [destruct Hin|]. right; exact Hin.
    + intros w0 w1 id Hst _. exact (Hne Hst).
Qed.



Lemma insert_rejected_offer (st : Store) (loads : Loader) (r : Row) (w : World) :
  (forall o, offer_from_row r o -> offer_accepts st o = false) ->
  let '(w', res) := insert_offer_to_db st loads r w in
  offers (work (conn w')) = offers (work (conn w))
  /\ (forall id, res <> Ok (Some id))
  /\ (aborted (conn w) = false ->
      (numericise (offer_type r) = CText (offer_type r) ->
       exists tid, option_map snd (find (fun p => String.eqb (fst p) (offer_type r)) (offer_types st))
                   = Some tid /\ tid <> 0%Z) ->
      (cell_truthy (numericise (valid_days_of_week r)) = true ->
       cell_loads loads (numericise (valid_days_of_week r)) <> None) ->
      conn w' = mark_aborted (conn w) /\ res = Raise ExnSql).
Proof.
  intros Hrej.
  unfold insert_offer_to_db, get_offer_type_id, insert_offer, insert_bag, loads_cell, execute,
    bind, get_conn, set_conn, ret, raise, print, lift_opt, as_dict.
  destruct w as [[cm cw ca cs] out0]. simpl.
  destruct ca; destruct (numericise (offer_type r)) as [ty| |] eqn:Ety; simpl.
  all: repeat match goal with
              | |- context [match ?x with _ => _ end] =>
                  lazymatch type of x with
                  | prod _ _ => fail
                  | _ => destruct x eqn:?; simpl
                  end
              end.
  all: cell_texts.
  all: try match goal with
           | H : offer_accepts _ ?o = true |- _ =>
               rewrite Hrej in H; [discriminate H | unfold offer_from_row; simpl; repeat split]
           end.
  all: split; [reflexivity|]; split; [intros id Hid; discriminate Hid|].
  all: intros Ha Hty Hdays; try (split; reflexivity); try discriminate Ha; exfalso.
  all: try (specialize (Hty eq_refl); destruct Hty as (t & Ht & Hn);
            try match goal with E : Z.eqb _ 0 = true |- _ => apply Z.eqb_eq in E end;
            congruence).
  all: apply Hdays; reflexivity.
Qed.

(** Extra X12 ([utils/offers.process_offer_submission],
    [add_offer_to_sheet], [insert_offer_to_db]): an offer submitted with
    the default start time 00:00 or end time 23:59 gets the cell ["None"];
    with a store that refuses the time ["None"], inserting its line adds
    no offer and returns no id, and for a known type it aborts the
    transaction. *)
Theorem default_time_offer_never_inserted (st : Store) (otype : string) (f : OfferForm)
  (od : OfferData) (now rid rname : string) (w : World) :
  process_offer_submission otype f = Some od ->
  f_start_time f = (0, 0) \/ f_end_time f = (23, 59) ->
  (forall o, o_valid_start_time o = Some (CText "None")
             \/ o_valid_end_time o = Some (CText "None") ->
             offer_accepts st o = false) ->
  let r := sheet_row now rid rname od in
  let '(w', res) := insert_offer_to_db st json_loads r w in
  (valid_start_time r = "None" \/ valid_end_time r = "None")
  /\ offers (work (conn w')) = offers (work (conn w))
  /\ (forall id, res <> Ok (Some id))
  /\ (aborted (conn w) = false ->
      (numericise otype = CText otype ->
       exists tid, option_map snd (find (fun p => String.eqb (fst p) otype) (offer_types st))
                   = Some tid /\ tid <> 0%Z) ->
      conn w' = mark_aborted (conn w) /\ res = Raise ExnSql).
Proof.
  intros Hp Hdef Hst r.
  unfold process_offer_submission in Hp.
  destruct (negb (str_truthy (f_title f))); [discriminate Hp|].
  injection Hp as <-.
  assert (Hcell : valid_start_time r = "None" \/ valid_end_time r = "None").
  { unfold r, sheet_row. cbn [valid_start_time valid_end_time od_valid_start_time od_valid_end_time].
    destruct Hdef as [E|E]; rewrite E; [left|right]; reflexivity. }
  assert (Hrej : forall o, offer_from_row r o -> offer_accepts st o = false).
  { intros o (Hs & He & _). apply Hst.
    destruct Hcell as [E|E]; [left; rewrite Hs, E | right; rewrite He, E]; reflexivity. }
  assert (Hl : cell_loads json_loads (numericise (valid_days_of_week r)) <> None)
    by (unfold r; rewrite sheet_row_days_cell, json_dumps_ints_numericise; simpl;
        rewrite json_dumps_ints_roundtrip; discriminate).
  generalize (insert_rejected_offer st json_loads r w Hrej).
  destruct (insert_offer_to_db st json_loads r w) as [w' res].
  intros (H1 & H2 & H3). split; [exact Hcell|]. split; [exact H1|]. split; [exact H2|].
  intros Ha Ht. apply H3; [exact Ha | exact Ht | intros _; exact Hl].
Qed.

Lemma last_cons_error (a : ListMsg) (l : list ListMsg) :
  last l LRule = LError -> last (a :: l) LRule = LError.
Proof. destruct l as [|b l]; [discriminate|]. intros H; exact H. Qed.

Ltac listing_cases :=
  repeat match goal with
         | |- context [match numericise ?s with _ => _ end] => destruct (numericise s)
         | |- context [match cell_truthy ?c with _ => _ end] => destruct (cell_truthy c)
         | |- context [match cell_loads ?l ?c with _ => _ end] => destruct (cell_loads l c) as [[]|]
         | |- context [match py_subscript ?k ?f with _ => _ end] => destruct (py_subscript k f)
         end.

Ltac listed_items Hitems :=
  let jj := fresh "j" in let t := fresh "t" in let n := fresh "n" in let ty := fresh "ty" in
  let Hin := fresh "Hin" in let E := fresh "E" in
  intros jj t n ty Hin;
  repeat (destruct Hin as [E|Hin]; [try discriminate E; injection E as <- _ _ _; simpl; lia|]);
  first [destruct Hin | specialize (Hitems jj t n ty Hin); simpl; lia].

Lemma list_loop_empty_bag (i : nat) (pre post : list Row) (r : Row) :
  surprise_bag_data r = "{}" ->
  let out := list_loop json_loads i (pre ++ r :: post) in
  last out LRule = LError
  /\ (forall j t n ty, In (LItem j t n ty) out -> j <= i + List.length pre).
Proof.
  intros Hs. revert i. induction pre as [|x pre IH]; intros i; cbn zeta.
  - simpl app. cbn [list_loop]. rewrite Hs, (numericise_lead "{" "}") by reflexivity.
    cbn [cell_truthy str_truthy cell_loads negb String.eqb].
    change (json_loads "{}") with (Some (JObj [])). cbv iota.
    change (py_subscript [] "price") with (@None Json). cbv iota.
    listing_cases.
    all: split; [reflexivity|].
    all: intros ? ? ? ? Hin;
         repeat (destruct Hin as [E|Hin]; [try discriminate E; injection E as <- _ _ _; lia|]);
         destruct Hin.
  - destruct (IH (S i)) as (Hl & Hitems).
    cbn [app list_loop]. fold (list_loop json_loads (S i) (pre ++ r :: post)) in *.
    listing_cases.
    all: split; [first [reflexivity | repeat apply last_cons_error; exact Hl]|].
    all: listed_items Hitems.
Qed.

(** Extra X13 ([admin_offer_approval.list_pending_offers]): when a pending
    record carries ["{}"] as bag data, the listing ends with the error
    line and no record after it is listed. *)
Theorem list_pending_stops_at_empty_bag (ws : Worksheet) (pre post : list Row) (r : Row) :
  filter (fun x => String.eqb (status x) "pending") (get_all_records ws) = pre ++ r :: post ->
  surprise_bag_data r = "{}" ->
  let out := list_pending_offers json_loads true ws in
  last out LRule = LError
  /\ (forall j t n ty, In (LItem j t n ty) out -> j <= S (List.length pre)).
Proof.
  intros Hf Hs. cbn zeta. unfold list_pending_offers. cbn [negb]. rewrite Hf.
  destruct (list_loop_empty_bag 1 pre post r Hs) as (Hl & Hitems).
  assert (Hne : exists y ys, pre ++ r :: post = y :: ys)
    by (destruct pre as [|y ys]; [exists r, post|exists y, (ys ++ r :: post)]; reflexivity).
  destruct Hne as (y & ys & E). rewrite E in *.
  split; [do 2 apply last_cons_error; exact Hl|].
  intros j t n ty [E1|[E1|Hin]]; try discriminate E1. exact (Hitems j t n ty Hin).
Qed.

(* ------------------------------------------------------------------ *)
(** ** Instances of the properties above at sample inputs *)

(** Where a property takes the [repr] of Python floats, the instances
    pass [id]: no sample cell is read as a float. *)

Lemma remove_offer_first_match_witness :
  (get_all_records [HEADERS; row_b; row_a] = [row_b] ++ row_a :: [] /\
   forallb (fun x => negb (offer_matches id "7" "10% Off" "Percent Discount" x)) [row_b] = true /\
   offer_matches id "7" "10% Off" "Percent Discount" row_a = true) /\
  remove_offer_from_sheet id true "7" "10% Off" "Percent Discount" [HEADERS; row_b; row_a]
    = Some (HEADERS :: [row_b] ++ [], true).
Proof.
  split; [split; [reflexivity|split; vm_compute; reflexivity]|].
  apply (remove_offer_first_match id "7" "10% Off" "Percent Discount" [HEADERS; row_b; row_a]
           [row_b] row_a []); vm_compute; reflexivity.
Defined.

(** The title cell [2024] is read as a number: no record matches the
    title text [2024]. *)
Lemma remove_offer_no_match_witness :
  forallb (fun x => negb (offer_matches id "7" "2024" "Percent Discount" x))
          (get_all_records [HEADERS; row_b; row_year_title]) = true /\
  remove_offer_from_sheet id true "7" "2024" "Percent Discount" [HEADERS; row_b; row_year_title]
    = Some (_ensure_headers [HEADERS; row_b; row_year_title], false).
Proof.
  split; [vm_compute; reflexivity|].
  apply remove_offer_no_match. vm_compute. reflexivity.
Defined.


Lemma approve_keeps_empty_bag_lines_witness :
  (In (sheet_row sample_now "7" "Tayyib" sample_offer)
      [HEADERS; sheet_row sample_now "7" "Tayyib" sample_offer] /\
   surprise_bag_data (sheet_row sample_now "7" "Tayyib" sample_offer) = "{}") /\
  In (sheet_row sample_now "7" "Tayyib" sample_offer)
     (fst (approve_offers accept_all_store json_loads
             [HEADERS; sheet_row sample_now "7" "Tayyib" sample_offer] "y" true sample_conn)).
Proof.
  split; [split; [simpl; right; left; reflexivity|reflexivity]|].
  apply approve_keeps_empty_bag_lines; [simpl; right; left; reflexivity|reflexivity].
Defined.

Lemma mixed_case_pending_shown_never_approved_witness :
  let p := mkPending (CText "2025-03-01T17:00:00") (CText "Percent Discount")
             (CText "Happy hour") (CText "") (CText "")
             (JArr [JNum 1; JNum 3]) (Some (CText "17:00")) (Some (CText "19:00"))
             (Some (CText "2025-03-01")) None false "pending" None in
  (In row_mixed_case (get_all_records [HEADERS; row_mixed_case]) /\
   py_lower (status row_mixed_case) = "pending" /\ status row_mixed_case <> "pending" /\
   normalize_pending id json_loads row_mixed_case = Some p) /\
  (In p (get_pending_offers_from_sheet id json_loads true [HEADERS; row_mixed_case]
           (cell_str id (numericise (restaurant_id row_mixed_case))))
   /\ p_status p = "pending"
   /\ In row_mixed_case (fst (approve_offers accept_all_store json_loads
                                [HEADERS; row_mixed_case] "y" true sample_conn))).
Proof.
  intros p.
  assert (Hne : status row_mixed_case <> "pending") by discriminate.
  split; [split; [simpl; left; reflexivity|split; [vm_compute; reflexivity|split; [exact Hne|vm_compute; reflexivity]]]|].
  apply mixed_case_pending_shown_never_approved;
    [simpl; left; reflexivity|vm_compute; reflexivity|exact Hne|vm_compute; reflexivity].
Defined.


Lemma default_time_offer_never_inserted_witness :
  (process_offer_submission "Percent Discount" sample_form = Some sample_offer /\
   (f_start_time sample_form = (0, 0) \/ f_end_time sample_form = (23, 59)) /\
   (forall o, o_valid_start_time o = Some (CText "None")
              \/ o_valid_end_time o = Some (CText "None") ->
              offer_accepts sample_store o = false)) /\
  let r := sheet_row sample_now "7" "Tayyib" sample_offer in
  let '(w', res) := insert_offer_to_db sample_store json_loads r sample_world in
  (valid_start_time r = "None" \/ valid_end_time r = "None")
  /\ offers (work (conn w')) = offers (work (conn sample_world))
  /\ (forall id, res <> Ok (Some id))
  /\ (aborted (conn sample_world) = false ->
      (numericise "Percent Discount" = CText "Percent Discount" ->
       exists tid, option_map snd (find (fun p => String.eqb (fst p) "Percent Discount")
                                        (offer_types sample_store))
                   = Some tid /\ tid <> 0%Z) ->
      conn w' = mark_aborted (conn sample_world) /\ res = Raise ExnSql).
Proof.
  assert (Hst : forall o, o_valid_start_time o = Some (CText "None")
                          \/ o_valid_end_time o = Some (CText "None") ->
                offer_accepts sample_store o = false).
  { intros o [E|E]; simpl; rewrite E; [reflexivity|].
    destruct (opt_ok pg_time_ok (o_valid_start_time o)); reflexivity. }
  split; [split; [vm_compute; reflexivity|split; [left; reflexivity|exact Hst]]|].
  apply (default_time_offer_never_inserted sample_store "Percent Discount" sample_form);
    [vm_compute; reflexivity|left; reflexivity|exact Hst].
Defined.

Lemma list_pending_stops_at_empty_bag_witness :
  (filter (fun x => String.eqb (status x) "pending")
          (get_all_records [HEADERS; sheet_row sample_now "7" "Tayyib" sample_offer; row_a])
     = [] ++ sheet_row sample_now "7" "Tayyib" sample_offer :: [row_a] /\
   surprise_bag_data (sheet_row sample_now "7" "Tayyib" sample_offer) = "{}") /\
  let out := list_pending_offers json_loads true
               [HEADERS; sheet_row sample_now "7" "Tayyib" sample_offer; row_a] in
  last out LRule = LError
  /\ (forall j t n ty, In (LItem j t n ty) out -> j <= S (List.length ([] : list Row))).
Proof.
  split; [split; [vm_compute; reflexivity|reflexivity]|].
  apply (list_pending_stops_at_empty_bag
           [HEADERS; sheet_row sample_now "7" "Tayyib" sample_offer; row_a]
           [] [row_a] (sheet_row sample_now "7" "Tayyib" sample_offer));
    [vm_compute; reflexivity|reflexivity].
Defined.

